(** * Review dashboard ([app.py]): data shaping, filtering and analysis

    A shallow embedding of the dashboard script.  Python strings are
    modelled as [string] (one [ascii] per character), pandas columns as
    lists, a missing cell ([None] / [NaN]) as [None], data frames as
    objects in a store addressed by location, and the script itself as a
    program in a small state-and-exception monad that renders user
    interface events. *)

From Stdlib Require Import ZArith QArith Ascii String.
From stdpp Require Import base option list sorting strings pretty gmap.

(** ** Python string operations *)

Module PyStr.

(** [s.find(sub)]: index of the leftmost occurrence of [sub] in [s]. *)
Fixpoint find (sub s : string) : option nat :=
  if String.prefix sub s then Some 0
  else match s with
       | EmptyString => None
       | String _ s' => S <$> find sub s'
       end.

(** [sub in s]. *)
Definition contains (sub s : string) : bool :=
  match find sub s with Some _ => true | None => false end.

(** [s[:n]] and [s[n:]] for a non-negative [n]. *)
Fixpoint take (n : nat) (s : string) : string :=
  match n, s with
  | S n', String c s' => String c (take n' s')
  | _, _ => EmptyString
  end.

Fixpoint drop (n : nat) (s : string) : string :=
  match n, s with
  | S n', String _ s' => drop n' s'
  | _, _ => s
  end.

(** [s.split(sep, maxsplit)] for a non-empty separator and a
    non-negative [maxsplit]: the leftmost [maxsplit] occurrences split,
    the rest of the string is the last part. *)
Fixpoint split (sep : string) (maxsplit : nat) (s : string) : list string :=
  match maxsplit with
  | O => [s]
  | S n =>
      match find sep s with
      | None => [s]
      | Some i => take i s :: split sep n (drop (i + String.length sep) s)
      end
  end.

(** [s.replace(old, new)]: every non-overlapping occurrence of [old],
    scanning from the left, is replaced.  [skip] counts the characters
    of the occurrence just replaced that are still to be passed over.
    With an empty [old], [new] is put before every character and at the
    end, as Python does. *)
Fixpoint replace_from (old new : string) (skip : nat) (s : string) : string :=
  match s with
  | EmptyString =>
      match old with EmptyString => new | _ => EmptyString end
  | String c s' =>
      match skip with
      | S k => replace_from old new k s'
      | O =>
          if String.prefix old s then
            match old with
            | EmptyString => new +:+ String c (replace_from old new 0 s')
            | String _ old' => new +:+ replace_from old new (String.length old') s'
            end
          else String c (replace_from old new 0 s')
      end
  end.

Definition replace (old new s : string) : string := replace_from old new 0 s.

(** [sep.join(parts)]. *)
Fixpoint join (sep : string) (parts : list string) : string :=
  match parts with
  | [] => EmptyString
  | [p] => p
  | p :: ps => p +:+ sep +:+ join sep ps
  end.

(** Truth value of a string: non-empty. *)
Definition truthy (s : string) : bool :=
  match s with EmptyString => false | _ => true end.

End PyStr.

(** ** Numbers read from text

    [pandas.to_numeric(..., errors='coerce')] turns each cell of a column
    into a float, and a cell that is missing or is not a numeral into
    [NaN].  The numeral is modelled by its exact decimal value
    [coefficient * 10 ^ exponent] (the float is the double nearest to it;
    the rounding is not modelled) and [NaN] by [None].  The grammar is
    the decimal one of the pandas tokenizer: optional blanks, an optional
    sign, digits with an optional fraction, an optional exponent,
    optional blanks.  The words pandas also reads as numbers ([inf],
    [infinity]) are not modelled. *)

Record Number := { coefficient : Z; exponent : Z }.

Module PyNum.

Definition is_space (c : ascii) : bool :=
  let n := nat_of_ascii c in (n =? 32)%nat || ((9 <=? n)%nat && (n <=? 13)%nat).

Definition is_digit (c : ascii) : bool :=
  let n := nat_of_ascii c in (48 <=? n)%nat && (n <=? 57)%nat.

Definition digit_value (c : ascii) : Z := Z.of_nat (nat_of_ascii c) - 48.

Fixpoint skip_spaces (s : string) : string :=
  match s with
  | String c s' => if is_space c then skip_spaces s' else s
  | EmptyString => s
  end.

(** The longest prefix of digits, and what follows it. *)
Fixpoint span_digits (s : string) : string * string :=
  match s with
  | String c s' =>
      if is_digit c
      then let '(ds, rest) := span_digits s' in (String c ds, rest)
      else (EmptyString, s)
  | EmptyString => (EmptyString, EmptyString)
  end.

Fixpoint digits_value_from (acc : Z) (ds : string) : Z :=
  match ds with
  | String c ds' => digits_value_from (10 * acc + digit_value c) ds'
  | EmptyString => acc
  end.

Definition digits_value (ds : string) : Z := digits_value_from 0 ds.

Definition sign_part (s : string) : bool * string :=
  match s with
  | String "-" s' => (true, s')
  | String "+" s' => (false, s')
  | _ => (false, s)
  end.

Definition signed (negative : bool) (n : Z) : Z :=
  if negative then (- n)%Z else n.

(** An exponent, when there is one, needs at least one digit. *)
Definition exponent_part (s : string) : option (Z * string) :=
  match s with
  | String c s' =>
      if (Ascii.eqb c "e" || Ascii.eqb c "E")%bool then
        let '(negative, s1) := sign_part s' in
        let '(ds, s2) := span_digits s1 in
        match ds with
        | EmptyString => None
        | _ => Some (signed negative (digits_value ds), s2)
        end
      else Some (0%Z, s)
  | EmptyString => Some (0%Z, s)
  end.

Definition parse (s : string) : option Number :=
  let '(negative, s1) := sign_part (skip_spaces s) in
  let '(int_digits, s2) := span_digits s1 in
  let '(frac_digits, s3) :=
    match s2 with
    | String "." s' => span_digits s'
    | _ => (EmptyString, s2)
    end in
  match int_digits +:+ frac_digits with
  | EmptyString => None
  | ds =>
      '(e, s4) ← exponent_part s3;
      match skip_spaces s4 with
      | EmptyString =>
          Some {| coefficient := signed negative (digits_value ds);
                  exponent := e - Z.of_nat (String.length frac_digits) |}
      | _ => None
      end
  end.

Fixpoint all_digits (s : string) : bool :=
  match s with
  | String c s' => is_digit c && all_digits s'
  | EmptyString => true
  end.

(** One cell under [errors='coerce']. *)
Definition coerce (cell : option string) : option Number := cell ≫= parse.

End PyNum.

Definition to_numeric (column : list (option string)) : list (option Number) :=
  PyNum.coerce <$> column.

(** ** Records *)

Record Timestamp := { year : Z; month : Z; day : Z }.

(** One row of [data.csv] once loaded.  The cells of the content column
    are text, and every row has a date: [load_data] converts the whole
    date column or raises.  A content cell that pandas reads as missing
    (an empty field) or as a number has no counterpart here: what is
    proved below is proved of files whose content cells are text. *)
Record Row := {
  type : string;
  content : string;
  rating : option Z;
  date : Timestamp
}.

(** ** Exceptions and fallible computations *)

Inductive Exn :=
  | FileNotFoundError
  | ReadError (why : string)
  | DateParseError (text : string)
  | KeyError (key : string)
  | ValueError (msg : string)
  | ModelError (msg : string)
  | DanglingFrame.

Definition exn_message (e : Exn) : string :=
  match e with
  | FileNotFoundError => "[Errno 2] No such file or directory: 'data.csv'"
  | ReadError why => why
  | DateParseError text => "Unknown datetime string format, unable to parse: " +:+ text
  | KeyError key => key
  | ValueError msg => msg
  | ModelError msg => msg
  | DanglingFrame => "frame"
  end.

Inductive Try (A : Type) :=
  | Ok (a : A)
  | Raise (e : Exn).
Arguments Ok {A} a.
Arguments Raise {A} e.

Definition try_bind {A B} (t : Try A) (k : A → Try B) : Try B :=
  match t with
  | Ok a => k a
  | Raise e => Raise e
  end.

Fixpoint try_map {A B} (f : A → Try B) (l : list A) : Try (list B) :=
  match l with
  | [] => Ok []
  | x :: l' =>
      try_bind (f x) (λ y, try_bind (try_map f l') (λ ys, Ok (y :: ys)))
  end.

(** ** The record store: [load_data] *)

(** A line of the file before the date column is converted. *)
Record RawRow := {
  raw_type : string;
  raw_content : string;
  raw_rating : option Z;
  raw_date : string
}.

(** What [pd.read_csv("data.csv")] finds. *)
Inductive Source :=
  | NoFile
  | Unreadable (why : string)
  | Csv (table : list RawRow).

Definition read_csv (src : Source) : Try (list RawRow) :=
  match src with
  | NoFile => Raise FileNotFoundError
  | Unreadable why => Raise (ReadError why)
  | Csv table => Ok table
  end.

Section Loader.

(** [pd.to_datetime] on one cell, read in the format pandas has settled
    on for the column; [None] when the text is no date in that format. *)
Variable parse_timestamp : string → option Timestamp.

Definition to_datetime_cell (text : string) : Try Timestamp :=
  match parse_timestamp text with
  | Some t => Ok t
  | None => Raise (DateParseError text)
  end.

(** The whole column is converted or the call raises. *)
Definition to_datetime (column : list string) : Try (list Timestamp) :=
  try_map to_datetime_cell column.

Definition with_date (r : RawRow) (t : Timestamp) : Row :=
  {| type := raw_type r; content := raw_content r;
     rating := raw_rating r; date := t |}.

Definition load_data (src : Source) : Try (list Row) :=
  let body :=
    try_bind (read_csv src) (λ df,
    try_bind (to_datetime (raw_date <$> df)) (λ dates,
    Ok (zip_with with_date df dates))) in
  match body with
  | Raise FileNotFoundError => Ok []
  | other => other
  end.

End Loader.

(** ** Product fields *)

(** [Series.str.split(pat, n=n, expand=True)]: a frame with as many
    columns as the longest split, shorter rows padded with missing
    cells. *)
Record Expanded := { width : nat; parts : list (list string) }.

Definition str_split_expand (pat : string) (n : nat) (column : list string)
  : Expanded :=
  let split_rows := PyStr.split pat n <$> column in
  {| width := max_list (length <$> split_rows); parts := split_rows |}.

(** [frame[k]]: the column labelled [k], a [KeyError] when the frame has
    no such column. *)
Definition expanded_column (e : Expanded) (k : nat) : Try (list (option string)) :=
  if decide (k < width e)
  then Ok ((λ row : list string, row !! k) <$> parts e)
  else Raise (KeyError (pretty k)).

Definition str_replace (old new : string) (column : list (option string))
  : list (option string) :=
  (λ cell : option string, PyStr.replace old new <$> cell) <$> column.

Definition product_names (contents : list string) : Try (list (option string)) :=
  let split_data := str_split_expand " - " 1 contents in
  try_bind (expanded_column split_data 0) (λ c0,
  Ok (str_replace "Product: " "" c0)).

Definition product_prices (contents : list string) : Try (list (option Number)) :=
  let split_data := str_split_expand " - " 1 contents in
  try_bind (expanded_column split_data 1) (λ c1,
  Ok (to_numeric c1)).

(** ** Data frames *)

(** What the sentiment model returns for one text. *)
Record Prediction := { label : string; score : Q }.

Inductive Cell :=
  | CText (s : string)
  | CMissing
  | CNumber (n : Number)
  | CScore (q : Q)
  | CRating (n : Z)
  | CDate (t : Timestamp).

Definition text_cell (c : option string) : Cell :=
  match c with Some s => CText s | None => CMissing end.

Definition number_cell (c : option Number) : Cell :=
  match c with Some n => CNumber n | None => CMissing end.

Definition rating_cell (c : option Z) : Cell :=
  match c with Some n => CRating n | None => CMissing end.

(** A frame: the rows of the file it was cut from, and the columns
    assigned to it afterwards, by label. *)
Record DataFrame := {
  rows : list Row;
  assigned : gmap string (list Cell)
}.

Definition new_frame (rs : list Row) : DataFrame :=
  {| rows := rs; assigned := ∅ |}.

(** [frame.empty] *)
Definition empty_frame (f : DataFrame) : bool :=
  match rows f with [] => true | _ => false end.

(** Keep the positions where the mask holds. *)
Fixpoint select_mask {A} (mask : list bool) (xs : list A) : list A :=
  match mask, xs with
  | b :: mask', x :: xs' =>
      if b then x :: select_mask mask' xs' else select_mask mask' xs'
  | _, _ => []
  end.

(** [frame[mask]] always builds a new frame: rows and assigned columns
    are cut by the same mask. *)
Definition boolean_index (p : Row → bool) (f : DataFrame) : DataFrame :=
  let mask := p <$> rows f in
  {| rows := select_mask mask (rows f);
     assigned := select_mask mask <$> assigned f |}.

(** [frame[label]], for reading. *)
Definition column (f : DataFrame) (name : string) : Try (list Cell) :=
  match assigned f !! name with
  | Some cells => Ok cells
  | None =>
      if String.eqb name "type" then Ok ((λ r, CText (type r)) <$> rows f)
      else if String.eqb name "content" then Ok ((λ r, CText (content r)) <$> rows f)
      else if String.eqb name "rating" then Ok ((λ r, rating_cell (rating r)) <$> rows f)
      else if String.eqb name "date" then Ok ((λ r, CDate (date r)) <$> rows f)
      else Raise (KeyError name)
  end.

(** [frame[[label; ...]]] *)
Definition columns (f : DataFrame) (names : list string) : Try (list (list Cell)) :=
  try_map (column f) names.

(** [frame[label] = values]: the list must be as long as the frame. *)
Definition assign (f : DataFrame) (name : string) (values : list Cell)
  : Try DataFrame :=
  if decide (length values = length (rows f))
  then Ok {| rows := rows f; assigned := <[name := values]> (assigned f) |}
  else Raise (ValueError "Length of values does not match length of index").

(** ** The time window *)

Definition months : list string :=
  ["January"; "February"; "March"; "April"; "May"; "June";
   "July"; "August"; "September"; "October"; "November"; "December"].

(** [xs.index(x)] *)
Fixpoint list_index (x : string) (xs : list string) : Try nat :=
  match xs with
  | [] => Raise (ValueError (x +:+ " is not in list"))
  | y :: xs' =>
      if String.eqb y x then Ok 0
      else try_bind (list_index x xs') (λ i, Ok (S i))
  end.

Definition month_index (selected_month : string) : Try Z :=
  try_bind (list_index selected_month months) (λ i, Ok (Z.of_nat i + 1)%Z).

Definition is_review (r : Row) : bool := String.eqb (type r) "review".
Definition is_product (r : Row) : bool := String.eqb (type r) "product".
Definition is_testimonial (r : Row) : bool := String.eqb (type r) "testimonial".

(** [year == selected_year], where an empty selection box gives [None]. *)
Definition year_is (selected_year : option Z) (r : Row) : bool :=
  match selected_year with
  | Some y => (year (date r) =? y)%Z
  | None => false
  end.

Definition in_window (selected_year : option Z) (month_ix : Z) (r : Row) : bool :=
  year_is selected_year r && (month (date r) =? month_ix)%Z.

(** [Series.unique()]: first occurrences, in order. *)
Fixpoint unique_from (seen xs : list Z) : list Z :=
  match xs with
  | [] => []
  | x :: xs' =>
      if bool_decide (x ∈ seen) then unique_from seen xs'
      else x :: unique_from (x :: seen) xs'
  end.

Definition unique (xs : list Z) : list Z := unique_from [] xs.

(** [sorted(xs, reverse=True)] *)
Fixpoint insert_desc (x : Z) (xs : list Z) : list Z :=
  match xs with
  | [] => [x]
  | y :: xs' => if (y <=? x)%Z then x :: xs else y :: insert_desc x xs'
  end.

Fixpoint sorted_reverse (xs : list Z) : list Z :=
  match xs with
  | [] => []
  | x :: xs' => insert_desc x (sorted_reverse xs')
  end.

(** The options of the year selection box. *)
Definition available_years (reviews_df : DataFrame) : list Z :=
  let available := sorted_reverse (unique ((λ r, year (date r)) <$> rows reviews_df)) in
  match available with
  | [] => [2023%Z]
  | _ => available
  end.

(** ** The running script: store, screen and control *)

Inductive Level := LError | LWarning | LInfo.

Inductive TextKind := Header | Subheader | Markdown | Written.

(** What one run puts on the page, and the calls it makes out of the
    program. *)
Inductive Event :=
  | Text (kind : TextKind) (s : string)
  | Message (level : Level) (s : string)
  | Radio (title : string) (options : list string)
  | Selectbox (title : string) (options : list Z)
  | SelectSlider (title : string) (options : list string)
  | Button (title : string)
  | Table (shown : list string) (cells : list (list Cell))
  | ModelCall (texts : list string)
  | Chart (data : DataFrame)
  | WordCloudCall (text : string)
  | Pyplot (figure : list (string * nat)).

(** Frames are objects: a variable holds a location, and assigning a
    column changes the frame at that location for every holder. *)
Record State := {
  heap : gmap nat DataFrame;
  screen : list Event
}.

Inductive Outcome (A : Type) :=
  | Done (a : A)
  | Raised (e : Exn)
  | Stopped.
Arguments Done {A} a.
Arguments Raised {A} e.
Arguments Stopped {A}.

Definition M (A : Type) : Type := State → Outcome A * State.

#[export] Instance M_ret : MRet M := λ A a σ, (Done a, σ).

#[export] Instance M_bind : MBind M := λ A B k m σ,
  match m σ with
  | (Done a, σ') => k a σ'
  | (Raised e, σ') => (Raised e, σ')
  | (Stopped, σ') => (Stopped, σ')
  end.

Definition raise {A} (e : Exn) : M A := λ σ, (Raised e, σ).

(** [st.stop()] *)
Definition st_stop {A} : M A := λ σ, (Stopped, σ).

Definition lift {A} (t : Try A) : M A :=
  match t with Ok a => mret a | Raise e => raise e end.

(** [try: body except Exception as e: handler(e)] *)
Definition try_except {A} (body : M A) (handler : Exn → M A) : M A :=
  λ σ, match body σ with
       | (Raised e, σ') => handler e σ'
       | other => other
       end.

Definition emit (ev : Event) : M unit :=
  λ σ, (Done (), {| heap := heap σ; screen := screen σ ++ [ev] |}).

Definition alloc (f : DataFrame) : M nat :=
  λ σ, let l := fresh (dom (heap σ)) in
       (Done l, {| heap := <[l := f]> (heap σ); screen := screen σ |}).

Definition read (l : nat) : M DataFrame :=
  λ σ, match heap σ !! l with
       | Some f => (Done f, σ)
       | None => (Raised DanglingFrame, σ)
       end.

Definition write (l : nat) (f : DataFrame) : M unit :=
  λ σ, (Done (), {| heap := <[l := f]> (heap σ); screen := screen σ |}).

(** [frame[mask]] *)
Definition getitem_mask (l : nat) (p : Row → bool) : M nat :=
  f ← read l; alloc (boolean_index p f).

(** [frame.copy()] *)
Definition copy (l : nat) : M nat :=
  f ← read l; alloc f.

(** [frame[name] = values], in place. *)
Definition setitem (l : nat) (name : string) (values : list Cell) : M unit :=
  f ← read l; f' ← lift (assign f name values); write l f'.

(** [st.dataframe(frame[[names]])] *)
Definition st_dataframe (l : nat) (names : list string) : M unit :=
  f ← read l; cells ← lift (columns f names); emit (Table names cells).

(** Widgets return the option the user picked, the first one when
    nothing was picked yet. *)
Definition picked {A} (options : list A) (choice : nat) : option A :=
  match options !! choice with
  | Some x => Some x
  | None => head options
  end.

Definition st_radio (title : string) (options : list string) (choice : nat)
  : M (option string) :=
  emit (Radio title options);; mret (picked options choice).

Definition st_selectbox (title : string) (options : list Z) (choice : nat)
  : M (option Z) :=
  emit (Selectbox title options);; mret (picked options choice).

Definition st_select_slider (title : string) (options : list string) (choice : nat)
  : M string :=
  match picked options choice with
  | Some x => emit (SelectSlider title options);; mret x
  | None => raise (ValueError "The `options` argument needs to be non-empty")
  end.

Definition st_button (title : string) (pressed : bool) : M bool :=
  emit (Button title);; mret pressed.

(** What the user did before this run. *)
Record Inputs := {
  navigation : nat;
  year_choice : nat;
  month_choice : nat;
  analysis_pressed : bool
}.

Definition st_text (kind : TextKind) (s : string) : M unit := emit (Text kind s).
Definition st_error (s : string) : M unit := emit (Message LError s).
Definition st_warning (s : string) : M unit := emit (Message LWarning s).
Definition st_info (s : string) : M unit := emit (Message LInfo s).

Definition options : list string := ["Products"; "Testimonials"; "Reviews"].

Definition show_year (selected_year : option Z) : string :=
  match selected_year with Some y => pretty y | None => "None" end.

(** [t[:512] for t in texts] *)
Definition short_texts (texts : list string) : list string :=
  PyStr.take 512 <$> texts.

(** ** The script *)

Section Dashboard.

Variable parse_timestamp : string → option Timestamp.
(** The sentiment model and the word cloud generator, called as black
    boxes that answer or raise. *)
Variable sentiment_pipeline : list string → Try (list Prediction).
Variable wordcloud_generate : string → Try (list (string * nat)).

Definition call_model (texts : list string) : M (list Prediction) :=
  emit (ModelCall texts);; lift (sentiment_pipeline texts).

Definition products_view (df : nat) : M unit :=
  st_text Header "🛍️ Products";;
  selected ← getitem_mask df is_product;
  products_df ← copy selected;
  f ← read products_df;
  if negb (empty_frame f) then
    st_info (pretty (length (rows f)) +:+ " products found.");;
    names ← lift (product_names (content <$> rows f));
    setitem products_df "Product Name" (text_cell <$> names);;
    prices ← lift (product_prices (content <$> rows f));
    setitem products_df "Price" (number_cell <$> prices);;
    st_dataframe products_df ["Product Name"; "Price"]
  else
    st_warning "No products found in data.csv.".

Definition testimonials_view (df : nat) : M unit :=
  st_text Header "⭐ Customer Testimonials";;
  testimonials_df ← getitem_mask df is_testimonial;
  f ← read testimonials_df;
  if negb (empty_frame f) then
    st_info (pretty (length (rows f)) +:+ " testimonials found.");;
    st_dataframe testimonials_df ["content"; "rating"]
  else
    st_warning "No testimonials found in data.csv.".

Definition word_cloud (filtered_reviews : nat) : M unit :=
  st_text Markdown "### Word Cloud";;
  try_except
    (f ← read filtered_reviews;
     let all_text := PyStr.join " " (content <$> rows f) in
     if PyStr.truthy all_text then
       emit (WordCloudCall all_text);;
       wc ← lift (wordcloud_generate all_text);
       emit (Pyplot wc)
     else
       st_warning "Not enough text for a word cloud.")
    (λ e, st_error ("Could not generate Word Cloud: " +:+ exn_message e)).

Definition analysis (filtered_reviews : nat) : M unit :=
  f ← read filtered_reviews;
  let texts := content <$> rows f in
  results ← call_model (short_texts texts);
  setitem filtered_reviews "sentiment" ((λ r, CText (label r)) <$> results);;
  setitem filtered_reviews "confidence" ((λ r, CScore (score r)) <$> results);;
  st_text Markdown "### Sentiment Distribution";;
  charted ← read filtered_reviews;
  emit (Chart charted);;
  word_cloud filtered_reviews;;
  st_text Markdown "### Details";;
  st_dataframe filtered_reviews ["date"; "content"; "sentiment"; "confidence"].

Definition reviews_view (df : nat) (inp : Inputs) : M unit :=
  st_text Header "📝 Review Analysis (AI Powered)";;
  selected ← getitem_mask df is_review;
  reviews_df ← copy selected;
  f ← read reviews_df;
  if empty_frame f then
    st_warning "No reviews found."
  else
    selected_year ← st_selectbox "Select Year:" (available_years f) (year_choice inp);
    selected_month ← st_select_slider "Select Month:" months (month_choice inp);
    month_ix ← lift (month_index selected_month);
    windowed ← getitem_mask reviews_df (in_window selected_year month_ix);
    filtered_reviews ← copy windowed;
    st_text Subheader ("Reviews in " +:+ selected_month +:+ " " +:+ show_year selected_year);;
    g ← read filtered_reviews;
    if empty_frame g then
      st_info "No reviews found for this time period."
    else
      st_text Written ("Count: " +:+ pretty (length (rows g)));;
      st_text Markdown "### Preview of Reviews";;
      st_dataframe filtered_reviews ["date"; "content"];;
      pressed ← st_button "Start Sentiment Analysis 🚀" (analysis_pressed inp);
      if (pressed : bool) then analysis filtered_reviews else mret ().

(** Everything below the loading of the file, for the frame [df]. *)
Definition main (df : nat) (inp : Inputs) : M unit :=
  loaded ← read df;
  (if empty_frame loaded then
     st_error "⚠️ File 'data.csv' not found or empty. Please run 'scraper_selenium.py' first!";;
     @st_stop unit
   else mret ());;
  st_text Header "Navigation";;
  selection ← st_radio "Go to:" options (navigation inp);
  if bool_decide (selection = Some "Products") then products_view df
  else if bool_decide (selection = Some "Testimonials") then testimonials_view df
  else if bool_decide (selection = Some "Reviews") then reviews_view df inp
  else mret ().

(** One run of the script from the file. *)
Definition script (src : Source) (inp : Inputs) : M unit :=
  st_text Header "📊 E-Commerce Sentiment Analysis Dashboard";;
  st_text Markdown "Analysis of product reviews using Hugging Face Transformers.";;
  loaded ← lift (load_data parse_timestamp src);
  df ← alloc (new_frame loaded);
  main df inp.

(** The page a run leaves, starting from a blank page. *)
Definition rerun (df : nat) (σ : State) (inp : Inputs) : State :=
  snd (main df inp {| heap := heap σ; screen := [] |}).

(** A session: the loaded frame is kept ([load_data] is cached), and
    every action of the user runs the script again.  The runs are given
    the cached frame itself, not a copy of it, so that a write to it
    would show in the later runs. *)
Definition session (df : nat) (σ : State) (actions : list Inputs) : State :=
  foldl (rerun df) σ actions.

End Dashboard.

Definition blank : State := {| heap := ∅; screen := [] |}.

(** ** Sample collaborators, for running the script on examples *)

(** Dates written [YYYY-MM-DD]. *)
Definition iso_date (text : string) : option Timestamp :=
  match PyStr.split "-" 2 text with
  | [y; m; d] =>
      match PyNum.span_digits y, PyNum.span_digits m, PyNum.span_digits d with
      | (String _ _, EmptyString), (String _ _, EmptyString), (String _ _, EmptyString) =>
          Some {| year := PyNum.digits_value y;
                  month := PyNum.digits_value m;
                  day := PyNum.digits_value d |}
      | _, _, _ => None
      end
  | _ => None
  end.

(** A model that judges every text by itself. *)
Definition sample_classify (text : string) : Prediction :=
  if PyStr.contains "great" text
  then {| label := "POSITIVE"; score := 99 # 100 |}
  else {| label := "NEGATIVE"; score := Z.of_nat (String.length text) # 1000 |}.

Definition sample_pipeline (texts : list string) : Try (list Prediction) :=
  Ok (sample_classify <$> texts).

(** A generator that, like the real one, refuses a text without words. *)
Definition sample_wordcloud (text : string) : Try (list (string * nat)) :=
  match PyNum.skip_spaces text with
  | EmptyString => Raise (ValueError "We need at least 1 word to plot a word cloud, got 0.")
  | _ => Ok [(text, 1)]
  end.

Definition sample_rows : list RawRow :=
  [ {| raw_type := "product"; raw_content := "Product: Laptop - 999.99";
       raw_rating := None; raw_date := "2023-01-01" |};
    {| raw_type := "review"; raw_content := "great product";
       raw_rating := None; raw_date := "2023-03-14" |};
    {| raw_type := "testimonial"; raw_content := "Fast delivery";
       raw_rating := Some 5%Z; raw_date := "2023-02-02" |};
    {| raw_type := "review"; raw_content := "terrible";
       raw_rating := None; raw_date := "2022-03-09" |};
    {| raw_type := "review"; raw_content := "ok";
       raw_rating := None; raw_date := "2023-03-20" |} ].

Definition sample_table : list Row :=
  match load_data iso_date (Csv sample_rows) with
  | Ok loaded => loaded
  | Raise _ => []
  end.

(** The sample file, loaded at location 0. *)
Definition sample_state : State :=
  {| heap := {[ 0 := new_frame sample_table ]}; screen := [] |}.

(** A file with products only. *)
Definition products_only : list RawRow :=
  [ {| raw_type := "product"; raw_content := "Product: Laptop - 999.99";
       raw_rating := None; raw_date := "2023-01-01" |} ].

(** A file whose only product has no price. *)
Definition unpriced_product : list RawRow :=
  [ {| raw_type := "product"; raw_content := "Product: Widget";
       raw_rating := None; raw_date := "2023-01-01" |} ].

Definition on_products : Inputs :=
  {| navigation := 0; year_choice := 0; month_choice := 0; analysis_pressed := false |}.

Definition on_reviews (year_ix month_ix : nat) (pressed : bool) : Inputs :=
  {| navigation := 2; year_choice := year_ix; month_choice := month_ix;
     analysis_pressed := pressed |}.

(** Filtered frames whose reviews have no text: one review, and two. *)
Definition blank_review : Row :=
  {| type := "review"; content := ""; rating := None;
     date := {| year := 2023; month := 3; day := 1 |} |}.


Definition two_blank_reviews : State :=
  {| heap := {[ 0 := new_frame [blank_review; blank_review] ]}; screen := [] |}.



(** The reviews of March 2023 of the sample file, as a filtered frame. *)
Definition march_reviews : State :=
  {| heap := {[ 0 := new_frame (List.filter (in_window (Some 2023%Z) 3)
                                   (List.filter is_review sample_table)) ]};
     screen := [] |}.

(** A text of a thousand characters, and a file whose only review has
    it as content. *)
Fixpoint repeated (n : nat) (s : string) : string :=
  match n with
  | O => EmptyString
  | S n' => s +:+ repeated n' s
  end.

Definition thousand_characters : string := repeated 100 "0123456789".

Definition long_review : list RawRow :=
  [ {| raw_type := "review"; raw_content := thousand_characters;
       raw_rating := None; raw_date := "2023-03-14" |} ].

(** A file whose product has the label in its name. *)
Definition relabelled_product : list RawRow :=
  [ {| raw_type := "product"; raw_content := "Product: Product: X - 19.99";
       raw_rating := None; raw_date := "2023-01-01" |} ].

(** ** Vocabulary of the properties *)



(** [emits P m]: a run of [m] keeps what is on the screen and adds only
    events that satisfy [P]. *)
Definition emits (P : Event → Prop) {A} (m : M A) : Prop :=
  ∀ σ, ∃ evs, screen (m σ).2 = screen σ ++ evs ∧ Forall P evs.

(** The texts handed to the model are at most 512 characters long. *)
Definition model_inputs_short (ev : Event) : Prop :=
  match ev with
  | ModelCall texts => Forall (λ t, String.length t ≤ 512) texts
  | _ => True
  end.

(** [keeps df m Φ]: a run of [m] leaves the frame at [df] as it was,
    and what it returns satisfies [Φ]. *)
Definition keeps (df : nat) {A} (m : M A) (Φ : A → Prop) : Prop :=
  ∀ σ base, heap σ !! df = Some base →
    heap (m σ).2 !! df = Some base ∧ ∀ a, (m σ).1 = Done a → Φ a.

(** Orders on the year options. *)
Definition descending : list Z → Prop := StronglySorted (λ a b : Z, (b ≤ a)%Z).
Definition strictly_descending : list Z → Prop := StronglySorted (λ a b : Z, (b < a)%Z).

(** The frame the analysis leaves, for a model that answers text by
    text with [classify]. *)
Definition classified (classify : string → Prediction) (f : DataFrame) : DataFrame :=
  let results := classify <$> short_texts (content <$> rows f) in
  {| rows := rows f;
     assigned :=
       <["confidence" := (λ r, CScore (score r)) <$> results]>
         (<["sentiment" := (λ r, CText (label r)) <$> results]> (assigned f)) |}.

(** ** Vocabulary of the further properties *)

(** Events other than a call of the model. *)
Definition not_model_call (ev : Event) : Prop :=
  match ev with
  | ModelCall _ => False
  | _ => True
  end.

(** * Properties *)

(** ** Strings *)

Section StringFacts.

Implicit Types s p a b l r old new : string.

Lemma append_cons c a b : String c a +:+ b = String c (a +:+ b).
Proof. done. Qed.

Lemma append_nil_l s : "" +:+ s = s.
Proof. done. Qed.

Lemma append_nil_r s : s +:+ "" = s.
Proof. induction s as [|c s IH]; [done | by rewrite append_cons, IH]. Qed.

Lemma append_assoc a b c : (a +:+ b) +:+ c = a +:+ (b +:+ c).
Proof. induction a as [|x a IH]; [done | by rewrite !append_cons, IH]. Qed.

Lemma append_length a b :
  String.length (a +:+ b) = String.length a + String.length b.
Proof.
  induction a as [|x a IH]; [done |].
  rewrite append_cons. simpl. by rewrite IH.
Qed.

Lemma prefix_append p r : String.prefix p (p +:+ r) = true.
Proof.
  induction p as [|c p IH]; simpl; [by destruct r |].
  by destruct (ascii_dec c c).
Qed.

Lemma prefix_nil s : String.prefix "" s = true.
Proof. by destruct s. Qed.

(** A prefix of [a +:+ b] that fits in [a] is a prefix of [a]. *)
Lemma prefix_append_inv p a b :
  String.prefix p (a +:+ b) = true →
  String.length p ≤ String.length a →
  String.prefix p a = true.
Proof.
  revert a. induction p as [|c p IH]; intros a Hp Hlen.
  - apply prefix_nil.
  - destruct a as [|d a]; simpl in *; [lia |].
    destruct (ascii_dec c d); [apply IH; [done | lia] | done].
Qed.

Lemma find_cons sub c s :
  PyStr.find sub (String c s) =
  if String.prefix sub (String c s) then Some 0 else S <$> PyStr.find sub s.
Proof. done. Qed.

Lemma find_here sub s : String.prefix sub s = true → PyStr.find sub s = Some 0.
Proof. intros H. destruct s; cbn [PyStr.find]; by rewrite H. Qed.

Lemma contains_cons_false sub c s :
  PyStr.contains sub (String c s) = false →
  String.prefix sub (String c s) = false ∧ PyStr.contains sub s = false.
Proof.
  unfold PyStr.contains. rewrite find_cons.
  destruct (String.prefix sub (String c s)); [done |].
  by destruct (PyStr.find sub s).
Qed.

(** The leftmost occurrence of the separator [init +:+ z] in
    [l +:+ sep +:+ r] is the one written out, when none starts inside
    [l]. *)
Lemma find_separator init z l r :
  PyStr.contains (init +:+ String z "") (l +:+ init) = false →
  PyStr.find (init +:+ String z "") (l +:+ (init +:+ String z "") +:+ r)
  = Some (String.length l).
Proof.
  set (sep := init +:+ String z ""). induction l as [|c l IH]; intros Hno.
  - rewrite append_nil_l. apply find_here, prefix_append.
  - rewrite append_cons in Hno. apply contains_cons_false in Hno as [Hp Hc].
    rewrite append_cons, find_cons.
    destruct (String.prefix sep (String c (l +:+ sep +:+ r))) eqn:E.
    + exfalso.
      assert (String c (l +:+ sep +:+ r) = String c (l +:+ init) +:+ String z r) as Heq.
      { rewrite append_cons. f_equal. unfold sep.
        by rewrite !append_assoc, append_cons, append_nil_l. }
      rewrite Heq in E. apply prefix_append_inv in E.
      * congruence.
      * unfold sep. simpl. rewrite !append_length. simpl. lia.
    + rewrite IH by done. done.
Qed.

Lemma take_append l r : PyStr.take (String.length l) (l +:+ r) = l.
Proof.
  induction l as [|c l IH]; [by destruct r |].
  rewrite append_cons. simpl. by rewrite IH.
Qed.

Lemma drop_append l r : PyStr.drop (String.length l) (l +:+ r) = r.
Proof.
  induction l as [|c l IH]; [by destruct r |].
  rewrite append_cons. simpl. done.
Qed.

Lemma split_first init z l r :
  PyStr.contains (init +:+ String z "") (l +:+ init) = false →
  PyStr.split (init +:+ String z "") 1 (l +:+ (init +:+ String z "") +:+ r)
  = [l; r].
Proof.
  intros Hno. cbn [PyStr.split]. rewrite find_separator by done.
  rewrite take_append. f_equal. f_equal.
  rewrite <- append_length, <- (append_assoc l _ r). apply drop_append.
Qed.

Lemma split_no_separator sep n s :
  PyStr.contains sep s = false → PyStr.split sep n s = [s].
Proof.
  unfold PyStr.contains. destruct n; simpl; [done |].
  by destruct (PyStr.find sep s).
Qed.

Lemma replace_from_skip old new p s :
  old ≠ "" →
  PyStr.replace_from old new (String.length p) (p +:+ s) =
  PyStr.replace_from old new 0 s.
Proof.
  intros Hold. induction p as [|c p IH]; [done |].
  rewrite append_cons. simpl. apply IH.
Qed.

(** An occurrence at the head is replaced and the scan goes on after
    it. *)
Lemma replace_head old new s :
  old ≠ "" →
  PyStr.replace old new (old +:+ s) = new +:+ PyStr.replace old new s.
Proof.
  intros Hold. unfold PyStr.replace.
  destruct old as [|c old']; [done |].
  rewrite append_cons. cbn [PyStr.replace_from].
  rewrite <- append_cons, prefix_append. by rewrite replace_from_skip.
Qed.

Lemma replace_absent old new s :
  PyStr.contains old s = false → PyStr.replace old new s = s.
Proof.
  unfold PyStr.replace. induction s as [|c s IH]; intros Hno.
  - by destruct old.
  - apply contains_cons_false in Hno as [Hp Hc].
    cbn [PyStr.replace_from]. rewrite Hp. by rewrite IH.
Qed.

End StringFacts.

(** ** Product fields *)

Lemma split_delimiter l r :
  PyStr.contains " - " (l +:+ " -") = false →
  PyStr.split " - " 1 (l +:+ " - " +:+ r) = [l; r].
Proof. apply (split_first " -" " "%char l r). Qed.

Lemma expanded_width_row pat n (contents : list string) i s :
  contents !! i = Some s →
  length (PyStr.split pat n s) ≤ width (str_split_expand pat n contents).
Proof.
  intros Hi. unfold str_split_expand. cbn [width].
  apply max_list_elem_of_le, list_elem_of_fmap.
  exists (PyStr.split pat n s). split; [done |].
  apply list_elem_of_fmap. exists s. split; [done |].
  by apply list_elem_of_lookup_2 with i.
Qed.

Lemma expanded_column_row pat n (contents : list string) k i s :
  contents !! i = Some s →
  k < length (PyStr.split pat n s) →
  ∃ cells, expanded_column (str_split_expand pat n contents) k = Ok cells ∧
           cells !! i = Some (PyStr.split pat n s !! k).
Proof.
  intros Hi Hk. pose proof (expanded_width_row pat n contents i s Hi) as Hw.
  unfold expanded_column. rewrite decide_True by lia.
  eexists. split; [done |].
  unfold str_split_expand. cbn [parts].
  by rewrite !list_lookup_fmap, Hi.
Qed.

(** A row with a delimiter: the text before the leftmost one gives the
    name, the text after it the price. *)
Lemma product_row (contents : list string) i l r :
  contents !! i = Some (l +:+ " - " +:+ r) →
  PyStr.contains " - " (l +:+ " -") = false →
  ∃ names prices,
    product_names contents = Ok names ∧
    product_prices contents = Ok prices ∧
    names !! i = Some (Some (PyStr.replace "Product: " "" l)) ∧
    prices !! i = Some (PyNum.parse r).
Proof.
  intros Hi Hno. pose proof (split_delimiter l r Hno) as Hsplit.
  destruct (expanded_column_row " - " 1 contents 0 i _ Hi) as (c0 & Hc0 & Hc0i).
  { rewrite Hsplit. simpl. lia. }
  destruct (expanded_column_row " - " 1 contents 1 i _ Hi) as (c1 & Hc1 & Hc1i).
  { rewrite Hsplit. simpl. lia. }
  rewrite Hsplit in Hc0i, Hc1i.
  unfold product_names, product_prices. rewrite Hc0, Hc1. cbn [try_bind].
  eexists _, _. split; [done |]. split; [done |].
  unfold str_replace, to_numeric. rewrite !list_lookup_fmap, Hc0i, Hc1i. done.
Qed.

(** A row without a delimiter, in a column where some row has one. *)
Lemma product_row_no_delimiter (contents : list string) i s j l r :
  contents !! i = Some s →
  PyStr.contains " - " s = false →
  contents !! j = Some (l +:+ " - " +:+ r) →
  PyStr.contains " - " (l +:+ " -") = false →
  ∃ names prices,
    product_names contents = Ok names ∧
    product_prices contents = Ok prices ∧
    names !! i = Some (Some (PyStr.replace "Product: " "" s)) ∧
    prices !! i = Some None.
Proof.
  intros Hi Hno Hj Hnoj.
  destruct (product_row contents j l r Hj Hnoj) as (names & prices & Hn & Hp & _).
  exists names, prices. split; [done |]. split; [done |].
  unfold product_names, product_prices in *.
  destruct (expanded_column _ 0) as [c0|] eqn:E0; [|done].
  destruct (expanded_column _ 1) as [c1|] eqn:E1; [|done].
  cbn [try_bind] in *. injection Hn as <-. injection Hp as <-.
  unfold expanded_column in E0, E1.
  destruct (decide _) in E0; [|done]. destruct (decide _) in E1; [|done].
  injection E0 as <-. injection E1 as <-.
  unfold str_replace, to_numeric, str_split_expand. cbn [parts].
  rewrite !list_lookup_fmap, Hi.
  unfold PyStr.contains in Hno. simpl.
  by destruct (PyStr.find " - " s).
Qed.

(** Without a delimiter in any row the split has a single column, and
    asking for the second one raises. *)
Lemma product_prices_no_delimiter (contents : list string) :
  contents ≠ [] →
  Forall (λ s, PyStr.contains " - " s = false) contents →
  product_prices contents = Raise (KeyError "1").
Proof.
  intros Hne Hall. unfold product_prices, expanded_column.
  assert (width (str_split_expand " - " 1 contents) ≤ 1) as Hw.
  { unfold str_split_expand. cbn [width].
    induction Hall as [|s ss Hs _ IH]; [simpl; lia |].
    rewrite !fmap_cons, (split_no_separator _ _ _ Hs). simpl.
    destruct ss; [simpl; lia |]. specialize (IH ltac:(done)). simpl in *. lia. }
  rewrite decide_False by lia. done.
Qed.

Lemma span_digits_all ds :
  PyNum.all_digits ds = true → PyNum.span_digits ds = (ds, "").
Proof.
  induction ds as [|c ds IH]; [done |]. simpl.
  intros [Hc Hds]%andb_prop. by rewrite Hc, IH.
Qed.

Lemma span_digits_point ds rest :
  PyNum.all_digits ds = true →
  PyNum.span_digits (ds +:+ String "." rest) = (ds, String "." rest).
Proof.
  induction ds as [|c ds IH]; [done |].
  intros [Hc Hds]%andb_prop. simpl. by rewrite Hc, IH.
Qed.

(** Plain decimals [digits.digits] are numerals, with the value one
    reads. *)
Lemma parse_decimal int_digits frac_digits :
  int_digits ≠ "" →
  PyNum.all_digits int_digits = true →
  PyNum.all_digits frac_digits = true →
  PyNum.parse (int_digits +:+ "." +:+ frac_digits) =
  Some {| coefficient := PyNum.digits_value (int_digits +:+ frac_digits);
          exponent := - Z.of_nat (String.length frac_digits) |}.
Proof.
  intros Hne Hi Hf.
  change ("." +:+ frac_digits) with (String "."%char frac_digits).
  destruct int_digits as [|c ds]; [done |].
  simpl in Hi. apply andb_prop in Hi as [Hc Hds].
  assert (PyNum.is_space c = false) as Hsp.
  { revert Hc. unfold PyNum.is_digit, PyNum.is_space.
    generalize (nat_of_ascii c). intros n Hn.
    apply andb_prop in Hn as [H1%Nat.leb_le H2%Nat.leb_le].
    apply orb_false_intro; [apply Nat.eqb_neq; lia |].
    apply andb_false_intro2, Nat.leb_gt. lia. }
  assert (∀ rest, PyNum.sign_part (String c rest) = (false, String c rest)) as Hsign.
  { intros rest. unfold PyNum.sign_part.
    destruct (decide (c = "-"%char)) as [->|]; [done |].
    destruct (decide (c = "+"%char)) as [->|]; [done |].
    destruct c as [[] [] [] [] [] [] [] []]; done. }
  unfold PyNum.parse. rewrite append_cons.
  cbn [PyNum.skip_spaces]. rewrite Hsp, Hsign.
  rewrite <- append_cons.
  rewrite (span_digits_point (String c ds) frac_digits) by (simpl; by rewrite Hc, Hds).
  rewrite (span_digits_all frac_digits Hf).
  rewrite append_cons. simpl. by rewrite Z.sub_0_l.
Qed.

(** X17: the round trip of product parsing for names without the
    label.  A product row whose content is "Product: {name} - {price}",
    where the delimiter written after the name is the leftmost " - " of
    the content, the name does not contain "Product: " and the price is
    a numeral with value [v], gets exactly that name and the price
    [v]. *)
Theorem product_parse_round_trip (contents : list string) i name price v :
  contents !! i = Some ("Product: " +:+ name +:+ " - " +:+ price) →
  PyStr.contains " - " ("Product: " +:+ name +:+ " -") = false →
  PyStr.contains "Product: " name = false →
  PyNum.parse price = Some v →
  ∃ names prices,
    product_names contents = Ok names ∧
    product_prices contents = Ok prices ∧
    names !! i = Some (Some name) ∧
    prices !! i = Some (Some v).
Proof.
  intros Hi Hdelim Hname Hprice.
  destruct (product_row contents i ("Product: " +:+ name) price)
    as (names & prices & Hn & Hp & Hni & Hpi).
  { by rewrite append_assoc. }
  { by rewrite append_assoc. }
  exists names, prices. split; [done |]. split; [done |].
  rewrite Hni, Hpi, Hprice. split; [|done].
  rewrite replace_head by done. by rewrite (replace_absent _ _ _ Hname).
Qed.

Lemma product_parse_round_trip_witness :
  ∃ names prices,
    product_names ["Product: Laptop - 999.99"; "Product: Mouse"] = Ok names ∧
    product_prices ["Product: Laptop - 999.99"; "Product: Mouse"] = Ok prices ∧
    names !! 0 = Some (Some "Laptop") ∧
    prices !! 0 = Some (Some {| coefficient := 99999; exponent := -2 |}).
Proof.
  apply (product_parse_round_trip
           ["Product: Laptop - 999.99"; "Product: Mouse"] 0 "Laptop" "999.99");
    reflexivity.
Defined.

(** C1 fails on the code: the label is removed with a replacement of
    every occurrence, so a name that contains "Product: " loses it too.
    For the content "Product: Product: X - 19.99" the name is "X", not
    "Product: X", and the Products view shows "X"; and a content
    without the leading label, "My Product: Y - 5", is not left
    unchanged: its name is "My Y". *)
Theorem product_name_loses_inner_label :
  PyNum.parse "19.99" = Some {| coefficient := 1999; exponent := -2 |} ∧
  product_names ["Product: " +:+ "Product: X" +:+ " - " +:+ "19.99"] = Ok [Some "X"] ∧
  product_names ["Product: " +:+ "Product: X" +:+ " - " +:+ "19.99"]
  ≠ Ok [Some "Product: X"] ∧
  product_prices ["Product: " +:+ "Product: X" +:+ " - " +:+ "19.99"]
  = Ok [Some {| coefficient := 1999; exponent := -2 |}] ∧
  product_names ["My Product: Y - 5"] = Ok [Some "My Y"] ∧
  last (screen (script iso_date sample_pipeline sample_wordcloud
                  (Csv relabelled_product) on_products blank).2)
  = Some (Table ["Product Name"; "Price"]
            [[CText "X"]; [CNumber {| coefficient := 1999; exponent := -2 |}]]).
Proof.
  split; [reflexivity |]. split; [reflexivity |]. split; [discriminate |].
  split; [reflexivity |]. split; [reflexivity |]. vm_compute. reflexivity.
Qed.

(** C2: the content is split at its leftmost " - " only; whatever
    follows it, further delimiters included, is the price side.  For
    "Product: A - B - 19.99" the name is "A" and the price is absent,
    the text "B - 19.99" being no numeral. *)
Theorem split_at_first_delimiter_only (contents : list string) i l r :
  contents !! i = Some (l +:+ " - " +:+ r) →
  PyStr.contains " - " (l +:+ " -") = false →
  PyStr.split " - " 1 (l +:+ " - " +:+ r) = [l; r] ∧
  (∃ names prices,
     product_names contents = Ok names ∧
     product_prices contents = Ok prices ∧
     names !! i = Some (Some (PyStr.replace "Product: " "" l)) ∧
     prices !! i = Some (PyNum.parse r)) ∧
  PyStr.split " - " 1 "Product: A - B - 19.99" = ["Product: A"; "B - 19.99"] ∧
  PyNum.parse "B - 19.99" = None ∧
  product_names ["Product: A - B - 19.99"] = Ok [Some "A"] ∧
  product_prices ["Product: A - B - 19.99"] = Ok [None].
Proof.
  intros Hi Hno. split; [by apply split_delimiter |].
  split; [by apply product_row |]. repeat split; reflexivity.
Qed.

Lemma split_at_first_delimiter_only_witness :
  PyStr.split " - " 1 ("Product: A" +:+ " - " +:+ "B - 19.99")
  = ["Product: A"; "B - 19.99"] ∧
  ∃ names prices,
    product_names ["Product: A - B - 19.99"] = Ok names ∧
    product_prices ["Product: A - B - 19.99"] = Ok prices ∧
    names !! 0 = Some (Some (PyStr.replace "Product: " "" "Product: A")) ∧
    prices !! 0 = Some (PyNum.parse "B - 19.99").
Proof.
  destruct (split_at_first_delimiter_only
              ["Product: A - B - 19.99"] 0 "Product: A" "B - 19.99")
    as (Hsplit & Hrow & _); [reflexivity | reflexivity |].
  split; [exact Hsplit | exact Hrow].
Defined.

(** ** The time window *)

Lemma select_mask_filter {A} (p : A → bool) (xs : list A) :
  select_mask (p <$> xs) xs = List.filter p xs.
Proof.
  induction xs as [|x xs IH]; [done |].
  rewrite fmap_cons. simpl. rewrite IH. done.
Qed.

Lemma boolean_index_rows p f :
  rows (boolean_index p f) = List.filter p (rows f).
Proof. apply select_mask_filter. Qed.

Lemma filter_filter_and {A} (p q : A → bool) (xs : list A) :
  List.filter q (List.filter p xs) = List.filter (λ x, p x && q x) xs.
Proof.
  induction xs as [|x xs IH]; [done |]. simpl.
  destruct (p x); simpl; [destruct (q x) |]; by rewrite IH.
Qed.

Lemma empty_frame_true f : empty_frame f = true ↔ rows f = [].
Proof. unfold empty_frame. by destruct (rows f). Qed.

Lemma month_index_lookup k name :
  months !! k = Some name → month_index name = Ok (Z.of_nat k + 1)%Z.
Proof.
  intros Hk.
  do 12 (destruct k as [|k]; [injection Hk as <-; reflexivity |]).
  done.
Qed.

(** ** Running the script *)

Lemma bind_run {A B} (m : M A) (k : A → M B) σ :
  (m ≫= k) σ =
  match m σ with
  | (Done a, σ') => k a σ'
  | (Raised e, σ') => (Raised e, σ')
  | (Stopped, σ') => (Stopped, σ')
  end.
Proof. done. Qed.

Lemma fresh_lookup (h : gmap nat DataFrame) l f :
  h !! l = Some f → fresh (dom h) ≠ l.
Proof.
  intros Hl Heq. apply (is_fresh (dom h)). rewrite Heq.
  apply elem_of_dom. eauto.
Qed.

Lemma lookup_alloc_old (h : gmap nat DataFrame) l f g :
  h !! l = Some f → <[fresh (dom h) := g]> h !! l = Some f.
Proof. intros Hl. rewrite lookup_insert_ne; [done | by eapply fresh_lookup]. Qed.

Lemma lookup_written (h : gmap nat DataFrame) l g :
  <[l := g]> h !! l = Some g.
Proof. apply lookup_insert_eq. Qed.

Lemma lookup_alloc_new (h : gmap nat DataFrame) g :
  <[fresh (dom h) := g]> h !! fresh (dom h) = Some g.
Proof. apply lookup_insert_eq. Qed.

Lemma emit_run ev σ :
  emit ev σ = (Done (), {| heap := heap σ; screen := screen σ ++ [ev] |}).
Proof. done. Qed.

Lemma ret_run {A} (a : A) σ : (mret a : M A) σ = (Done a, σ).
Proof. done. Qed.

Lemma lift_ok_run {A} (a : A) (σ : State) : lift (Ok a) σ = (Done a, σ).
Proof. done. Qed.

Lemma lift_raise_run {A} e (σ : State) : lift (@Raise A e) σ = (Raised e, σ).
Proof. done. Qed.

Lemma read_run l f σ : heap σ !! l = Some f → read l σ = (Done f, σ).
Proof. intros H. unfold read. by rewrite H. Qed.

Lemma getitem_mask_run l p f σ :
  heap σ !! l = Some f →
  getitem_mask l p σ =
  (Done (fresh (dom (heap σ))),
   {| heap := <[fresh (dom (heap σ)) := boolean_index p f]> (heap σ);
      screen := screen σ |}).
Proof. intros H. unfold getitem_mask. by rewrite bind_run, (read_run l f). Qed.

Lemma copy_run l f σ :
  heap σ !! l = Some f →
  copy l σ =
  (Done (fresh (dom (heap σ))),
   {| heap := <[fresh (dom (heap σ)) := f]> (heap σ); screen := screen σ |}).
Proof. intros H. unfold copy. by rewrite bind_run, (read_run l f). Qed.

Lemma setitem_run l name values f f' σ :
  heap σ !! l = Some f →
  assign f name values = Ok f' →
  setitem l name values σ =
  (Done (), {| heap := <[l := f']> (heap σ); screen := screen σ |}).
Proof.
  intros H Hf. unfold setitem.
  by rewrite bind_run, (read_run l f), bind_run, Hf.
Qed.

Lemma st_dataframe_run l names f cells σ :
  heap σ !! l = Some f →
  columns f names = Ok cells →
  st_dataframe l names σ =
  (Done (), {| heap := heap σ; screen := screen σ ++ [Table names cells] |}).
Proof.
  intros H Hc. unfold st_dataframe.
  by rewrite bind_run, (read_run l f), bind_run, Hc.
Qed.

Create HintDb frames.
#[local] Hint Resolve lookup_alloc_new lookup_alloc_old lookup_written : frames.

Ltac frame_lookup := cbn [heap screen]; solve [eauto with frames].

(** One step of a run: the leftmost call of the goal is replaced by what
    it returns and the state it leaves. *)
Ltac run_step :=
  first
    [ rewrite bind_run
    | rewrite emit_run
    | rewrite ret_run
    | rewrite lift_ok_run
    | rewrite lift_raise_run
    | erewrite getitem_mask_run by frame_lookup
    | erewrite copy_run by frame_lookup
    | erewrite read_run by frame_lookup ];
  cbn [heap screen].

Ltac run := unfold st_text, st_error, st_warning, st_info; repeat run_step.

Section Runs.

Variable parse_timestamp : string → option Timestamp.
Variable sentiment_pipeline : list string → Try (list Prediction).
Variable wordcloud_generate : string → Try (list (string * nat)).

Lemma main_empty_run df inp f σ :
  heap σ !! df = Some f →
  empty_frame f = true →
  main sentiment_pipeline wordcloud_generate df inp σ =
  (Stopped,
   {| heap := heap σ;
      screen := screen σ ++
        [Message LError "⚠️ File 'data.csv' not found or empty. Please run 'scraper_selenium.py' first!"] |}).
Proof.
  intros Hdf Hempty. unfold main.
  rewrite bind_run, (read_run df f) by done.
  rewrite Hempty. done.
Qed.

Lemma reviews_view_none_run df inp f σ :
  heap σ !! df = Some f →
  List.filter is_review (rows f) = [] →
  ∃ h, reviews_view sentiment_pipeline wordcloud_generate df inp σ =
  (Done (),
   {| heap := h;
      screen := screen σ ++
        [Text Header "📝 Review Analysis (AI Powered)";
         Message LWarning "No reviews found."] |}).
Proof.
  intros Hdf Hnone. unfold reviews_view. run.
  assert (empty_frame (boolean_index is_review f) = true) as ->.
  { apply empty_frame_true. by rewrite boolean_index_rows. }
  run. rewrite <- app_assoc. eexists. done.
Qed.

Lemma reviews_view_empty_window_run df inp f σ name m :
  heap σ !! df = Some f →
  List.filter is_review (rows f) ≠ [] →
  picked months (month_choice inp) = Some name →
  month_index name = Ok m →
  let reviews_df := boolean_index is_review f in
  let selected_year := picked (available_years reviews_df) (year_choice inp) in
  List.filter (in_window selected_year m) (rows reviews_df) = [] →
  ∃ h, reviews_view sentiment_pipeline wordcloud_generate df inp σ =
  (Done (),
   {| heap := h;
      screen := screen σ ++
        [Text Header "📝 Review Analysis (AI Powered)";
         Selectbox "Select Year:" (available_years reviews_df);
         SelectSlider "Select Month:" months;
         Text Subheader ("Reviews in " +:+ name +:+ " " +:+ show_year selected_year);
         Message LInfo "No reviews found for this time period."] |}).
Proof.
  intros Hdf Hsome Hname Hm reviews_df selected_year Hnone.
  unfold reviews_view. run.
  assert (empty_frame (boolean_index is_review f) = false) as ->.
  { apply not_true_is_false. rewrite empty_frame_true, boolean_index_rows. done. }
  unfold st_selectbox, st_select_slider. rewrite Hname. run.
  rewrite Hm. run.
  assert (empty_frame (boolean_index (in_window selected_year m) reviews_df) = true) as Hw.
  { apply empty_frame_true. by rewrite boolean_index_rows. }
  fold reviews_df. fold selected_year. rewrite Hw. run.
  rewrite <- !app_assoc. eexists. done.
Qed.

End Runs.

(** ** What a run may put on the screen *)


Section Emits.

Variable P : Event → Prop.

Lemma emits_silent {A} (m : M A) :
  (∀ σ, screen (m σ).2 = screen σ) → emits P m.
Proof. intros H σ. exists []. by rewrite H, app_nil_r. Qed.

Lemma emits_ret {A} (a : A) : emits P (mret a).
Proof. by apply emits_silent. Qed.

Lemma emits_raise {A} e : emits P (@raise A e).
Proof. by apply emits_silent. Qed.

Lemma emits_stop {A} : emits P (@st_stop A).
Proof. by apply emits_silent. Qed.

Lemma emits_lift {A} (t : Try A) : emits P (lift t).
Proof. destruct t; by apply emits_silent. Qed.

Lemma emits_read l : emits P (read l).
Proof. apply emits_silent. intros σ. unfold read. by destruct (heap σ !! l). Qed.

Lemma emits_alloc f : emits P (alloc f).
Proof. by apply emits_silent. Qed.

Lemma emits_write l f : emits P (write l f).
Proof. by apply emits_silent. Qed.

Lemma emits_emit ev : P ev → emits P (emit ev).
Proof. intros H σ. exists [ev]. split; [done | by constructor]. Qed.

Lemma emits_bind {A B} (m : M A) (k : A → M B) :
  emits P m → (∀ a, emits P (k a)) → emits P (m ≫= k).
Proof.
  intros Hm Hk σ. rewrite bind_run.
  destruct (Hm σ) as (evs & Hs & Hevs).
  destruct (m σ) as [[a|e|] σ']; cbn [snd] in *; [|by eauto..].
  destruct (Hk a σ') as (evs' & Hs' & Hevs').
  exists (evs ++ evs'). rewrite Hs', Hs, app_assoc. split; [done |].
  by apply Forall_app.
Qed.

Lemma emits_try_except {A} (body : M A) handler :
  emits P body → (∀ e, emits P (handler e)) → emits P (try_except body handler).
Proof.
  intros Hm Hk σ. unfold try_except.
  destruct (Hm σ) as (evs & Hs & Hevs).
  destruct (body σ) as [[a|e|] σ']; cbn [snd] in *; [by eauto| |by eauto].
  destruct (Hk e σ') as (evs' & Hs' & Hevs').
  exists (evs ++ evs'). rewrite Hs', Hs, app_assoc. split; [done |].
  by apply Forall_app.
Qed.

Lemma emits_elem {A} (m : M A) ev σ :
  emits P m → ev ∈ screen σ → ev ∈ screen (m σ).2.
Proof.
  intros Hm Hev. destruct (Hm σ) as (evs & -> & _).
  apply elem_of_app. by left.
Qed.

End Emits.

(** Rules are applied by the shape of the program; events are checked
    by [done]. *)
Ltac emits_step :=
  match goal with
  | |- emits _ (_ ≫= _) => apply emits_bind; [| intros ?]
  | |- emits _ (mret _) => apply emits_ret
  | |- emits _ (raise _) => apply emits_raise
  | |- emits _ st_stop => apply emits_stop
  | |- emits _ (lift _) => apply emits_lift
  | |- emits _ (read _) => apply emits_read
  | |- emits _ (alloc _) => apply emits_alloc
  | |- emits _ (write _ _) => apply emits_write
  | |- emits _ (emit _) => apply emits_emit; try done
  | |- emits _ (try_except _ _) => apply emits_try_except; [| intros ?]
  | |- emits _ (if ?b then _ else _) => destruct b
  | |- emits _ (match ?x with _ => _ end) => destruct x
  end.

Ltac emits_auto :=
  unfold getitem_mask, copy, setitem, st_dataframe, st_text, st_error,
    st_warning, st_info, st_radio, st_selectbox, st_select_slider, st_button;
  repeat emits_step.


Lemma take_length n s : String.length (PyStr.take n s) ≤ n.
Proof.
  revert s. induction n as [|n IH]; intros [|c s]; simpl; try lia.
  specialize (IH s). lia.
Qed.

Lemma take_short n s : String.length s ≤ n → PyStr.take n s = s.
Proof.
  revert s. induction n as [|n IH]; intros [|c s]; simpl; try done; [lia |].
  intros H. rewrite IH; [done | lia].
Qed.

Lemma take_drop n s : PyStr.take n s +:+ PyStr.drop n s = s.
Proof.
  revert s. induction n as [|n IH]; intros [|c s]; try done.
  simpl. rewrite append_cons. by rewrite IH.
Qed.

Lemma take_long n s : n ≤ String.length s → String.length (PyStr.take n s) = n.
Proof.
  revert s. induction n as [|n IH]; intros [|c s] H; simpl in *; try done; [lia |].
  rewrite IH; [done | lia].
Qed.

Lemma short_texts_bound texts :
  Forall (λ t, String.length t ≤ 512) (short_texts texts).
Proof. apply Forall_fmap, Forall_true. intros t. apply take_length. Qed.

Section EmitsScript.

Variable parse_timestamp : string → option Timestamp.
Variable sentiment_pipeline : list string → Try (list Prediction).
Variable wordcloud_generate : string → Try (list (string * nat)).

Lemma analysis_inputs_short l :
  emits model_inputs_short (analysis sentiment_pipeline wordcloud_generate l).
Proof.
  unfold analysis, word_cloud, call_model. emits_auto.
  apply short_texts_bound.
Qed.

Lemma main_inputs_short df inp :
  emits model_inputs_short (main sentiment_pipeline wordcloud_generate df inp).
Proof.
  pose proof analysis_inputs_short as Ha.
  unfold main, products_view, testimonials_view, reviews_view.
  emits_auto; apply Ha.
Qed.

Lemma script_inputs_short src inp :
  emits model_inputs_short
    (script parse_timestamp sentiment_pipeline wordcloud_generate src inp).
Proof.
  pose proof main_inputs_short as Hm.
  unfold script. emits_auto. apply Hm.
Qed.

End EmitsScript.

Lemma short_texts_lookup texts i t :
  texts !! i = Some t → short_texts texts !! i = Some (PyStr.take 512 t).
Proof. intros H. unfold short_texts. by rewrite list_lookup_fmap, H. Qed.

(** What is cut off is the end: the cut text is the beginning of the
    text, as long as the text or 512 characters long. *)
Lemma short_texts_beginning texts i t :
  texts !! i = Some t →
  ∃ cut lost,
    short_texts texts !! i = Some cut ∧
    t = cut +:+ lost ∧
    String.length cut = String.length t `min` 512.
Proof.
  intros Hi. exists (PyStr.take 512 t), (PyStr.drop 512 t).
  split; [by apply short_texts_lookup |].
  split; [by rewrite take_drop |].
  destruct (decide (512 ≤ String.length t)) as [Hlong | Hshort].
  - rewrite take_long by done. lia.
  - rewrite take_short by lia. lia.
Qed.

Lemma emits_anything {A} (P : Event → Prop) (m : M A) σ :
  emits P m → ∃ evs, screen (m σ).2 = screen σ ++ evs.
Proof. intros H. destruct (H σ) as (evs & ? & _). eauto. Qed.

(** The first thing the analysis puts out is the call of the model, on
    the cut texts. *)
Lemma analysis_starts_with_call
    (sentiment_pipeline : list string → Try (list Prediction))
    (wordcloud_generate : string → Try (list (string * nat))) l f σ :
  heap σ !! l = Some f →
  ∃ rest,
    screen (analysis sentiment_pipeline wordcloud_generate l σ).2 =
    screen σ ++ ModelCall (short_texts (content <$> rows f)) :: rest.
Proof.
  intros Hl. unfold analysis, call_model.
  rewrite bind_run, (read_run l f) by done.
  rewrite bind_run, bind_run, emit_run.
  match goal with
  | |- context [lift ?t] => destruct t as [results|e]
  end.
  + rewrite lift_ok_run.
    match goal with
    | |- ∃ _, screen (?m ?s).2 = _ =>
        destruct (emits_anything (λ _, True) m s) as (evs & ->);
          [unfold word_cloud; emits_auto |]
    end.
    cbn [screen]. exists evs. by rewrite <- app_assoc.
  + rewrite lift_raise_run. cbn [snd screen]. exists []. done.
Qed.

(** C4: the texts are cut to their first 512 characters before the
    model sees them.  Every text of the cut list is the beginning of the
    text it comes from and is at most 512 long: the whole text when that
    was at most 512 long, its first 512 characters otherwise.  Every
    call of the model in any run of the script receives texts of at most
    512 characters, and the call, on the cut contents, is the first
    thing the analysis puts out: cutting raises nothing and shows no
    message. *)
Theorem truncation_before_model
    (parse_timestamp : string → option Timestamp)
    (sentiment_pipeline : list string → Try (list Prediction))
    (wordcloud_generate : string → Try (list (string * nat))) :
  (∀ texts,
     Forall (λ t, String.length t ≤ 512) (short_texts texts) ∧
     length (short_texts texts) = length texts) ∧
  (∀ texts i t,
     texts !! i = Some t → String.length t ≤ 512 →
     short_texts texts !! i = Some t) ∧
  (∀ texts i t,
     texts !! i = Some t →
     ∃ cut lost,
       short_texts texts !! i = Some cut ∧
       t = cut +:+ lost ∧
       String.length cut = String.length t `min` 512) ∧
  (∀ src inp texts,
     ModelCall texts ∈
       screen (script parse_timestamp sentiment_pipeline wordcloud_generate
                 src inp blank).2 →
     Forall (λ t, String.length t ≤ 512) texts) ∧
  (∀ l f σ,
     heap σ !! l = Some f →
     ∃ rest,
       screen (analysis sentiment_pipeline wordcloud_generate l σ).2 =
       screen σ ++ ModelCall (short_texts (content <$> rows f)) :: rest).
Proof.
  repeat split.
  - apply short_texts_bound.
  - unfold short_texts. by rewrite length_fmap.
  - intros texts i t Hi Ht. rewrite (short_texts_lookup _ _ _ Hi).
    by rewrite take_short.
  - intros texts i t Hi. by apply short_texts_beginning.
  - intros src inp texts Hin.
    destruct (script_inputs_short parse_timestamp sentiment_pipeline
                wordcloud_generate src inp blank) as (evs & Hs & Hevs).
    rewrite Hs in Hin. cbn [blank screen app] in Hin.
    by apply (proj1 (Forall_forall _ _) Hevs) in Hin.
  - intros l f σ Hl. by apply analysis_starts_with_call.
Qed.

Lemma truncation_before_model_witness :
  (∃ cut lost,
     short_texts ["ok"; thousand_characters] !! 1 = Some cut ∧
     thousand_characters = cut +:+ lost ∧
     String.length cut = 512) ∧
  short_texts ["ok"; thousand_characters] !! 0 = Some "ok" ∧
  Forall (λ t, String.length t ≤ 512) [PyStr.take 512 thousand_characters].
Proof.
  destruct (truncation_before_model iso_date sample_pipeline sample_wordcloud)
    as (_ & Hsame & Hcut & Hcalls & _).
  split; [| split].
  - apply (Hcut ["ok"; thousand_characters] 1 thousand_characters). reflexivity.
  - apply (Hsame ["ok"; thousand_characters] 0 "ok"); [reflexivity | simpl; lia].
  - apply (Hcalls (Csv long_review) (on_reviews 0 2 true)).
    vm_compute. apply list_elem_of_In. do 12 right. left. reflexivity.
Defined.

(** ** The word cloud *)






Section WordCloud.

Variable wordcloud_generate : string → Try (list (string * nat)).

Lemma word_cloud_run l f σ :
  heap σ !! l = Some f →
  let all_text := PyStr.join " " (content <$> rows f) in
  word_cloud wordcloud_generate l σ =
  (Done (),
   {| heap := heap σ;
      screen := screen σ ++
        Text Markdown "### Word Cloud" ::
        if PyStr.truthy all_text then
          [WordCloudCall all_text;
           match wordcloud_generate all_text with
           | Ok figure => Pyplot figure
           | Raise e =>
               Message LError ("Could not generate Word Cloud: " +:+ exn_message e)
           end]
        else [Message LWarning "Not enough text for a word cloud."] |}).
Proof.
  intros Hl all_text. unfold word_cloud, try_except. run.
  fold all_text. destruct (PyStr.truthy all_text).
  - run. destruct (wordcloud_generate all_text) as [figure|e]; run;
      by rewrite <- !app_assoc.
  - run. by rewrite <- !app_assoc.
Qed.


End WordCloud.



(** Two reviews without any text join to one space: the text is not
    empty and the generator is called on it. *)
Example word_cloud_two_blank_reviews :
  word_cloud sample_wordcloud 0 two_blank_reviews =
  (Done (),
   {| heap := heap two_blank_reviews;
      screen :=
        [Text Markdown "### Word Cloud";
         WordCloudCall " ";
         Message LError
           "Could not generate Word Cloud: We need at least 1 word to plot a word cloud, got 0."] |}).
Proof.
  by rewrite (word_cloud_run sample_wordcloud 0
                (new_frame [blank_review; blank_review])).
Qed.

(** ** The analysis *)

Lemma assign_ok f name values :
  length values = length (rows f) →
  assign f name values =
  Ok {| rows := rows f; assigned := <[name := values]> (assigned f) |}.
Proof. intros H. unfold assign. by rewrite decide_True. Qed.

Lemma column_assigned f name cells :
  assigned f !! name = Some cells → column f name = Ok cells.
Proof. intros H. unfold column. by rewrite H. Qed.

Lemma column_of_file f name :
  name ∈ ["type"; "content"; "rating"; "date"] → ∃ cells, column f name = Ok cells.
Proof.
  intros Hin. unfold column. destruct (assigned f !! name); [by eauto |].
  repeat (apply elem_of_cons in Hin as [-> | Hin]; [by eauto |]).
  by apply elem_of_nil in Hin.
Qed.

Section Analysis.

(** A model that answers text by text: as many answers as texts, the
    answer at each place for the text at that place. *)
Variable classify : string → Prediction.
Variable sentiment_pipeline : list string → Try (list Prediction).
Hypothesis pipeline_pointwise :
  ∀ texts, sentiment_pipeline texts = Ok (classify <$> texts).

Variable wordcloud_generate : string → Try (list (string * nat)).


Lemma analysis_run l f σ :
  heap σ !! l = Some f →
  ∃ evs,
    analysis sentiment_pipeline wordcloud_generate l σ =
    (Done (),
     {| heap := <[l := classified classify f]> (heap σ); screen := screen σ ++ evs |}).
Proof.
  intros Hl. unfold analysis, call_model. run.
  rewrite pipeline_pointwise. run.
  erewrite setitem_run;
    [| frame_lookup | apply assign_ok; unfold short_texts; by rewrite !length_fmap].
  run.
  erewrite setitem_run;
    [| frame_lookup
     | apply assign_ok; unfold short_texts; cbn [rows]; by rewrite !length_fmap].
  run. cbn [assigned rows]. fold (classified classify f).
  rewrite (word_cloud_run wordcloud_generate l (classified classify f)) by frame_lookup.
  run.
  destruct (column_of_file (classified classify f) "date") as (c1 & Hc1); [set_solver |].
  destruct (column_of_file (classified classify f) "content") as (c2 & Hc2); [set_solver |].
  erewrite st_dataframe_run; [| frame_lookup |].
  2:{ unfold columns. cbn [try_map]. rewrite Hc1, Hc2.
      erewrite (column_assigned _ "sentiment");
        [| cbn [classified assigned]; by rewrite lookup_insert_ne, lookup_insert_eq].
      erewrite (column_assigned _ "confidence");
        [| cbn [classified assigned]; by rewrite lookup_insert_eq].
      done. }
  cbn [heap screen]. rewrite !insert_insert_eq, <- !app_assoc. eauto.
Qed.

(** C5: with a model that answers text by text, the analysis ends
    without an error and leaves on the filtered frame one sentiment
    and one confidence per review, in the order of the reviews: those
    at place [i] are the label and the score of the first 512
    characters of the [i]-th review. *)
Theorem classifier_order_preserved l f σ :
  heap σ !! l = Some f →
  ∃ σ' f' sentiments confidences,
    analysis sentiment_pipeline wordcloud_generate l σ = (Done (), σ') ∧
    ModelCall (short_texts (content <$> rows f)) ∈ screen σ' ∧
    heap σ' !! l = Some f' ∧
    rows f' = rows f ∧
    column f' "sentiment" = Ok sentiments ∧
    column f' "confidence" = Ok confidences ∧
    length sentiments = length (rows f) ∧
    length confidences = length (rows f) ∧
    ∀ i r, rows f !! i = Some r →
      sentiments !! i = Some (CText (label (classify (PyStr.take 512 (content r))))) ∧
      confidences !! i = Some (CScore (score (classify (PyStr.take 512 (content r))))).
Proof.
  intros Hl. destruct (analysis_run l f σ Hl) as (evs & Hrun).
  destruct (analysis_starts_with_call sentiment_pipeline wordcloud_generate
              l f σ Hl) as (rest & Hcall).
  rewrite Hrun in Hcall. cbn [snd screen] in Hcall.
  eexists _, (classified classify f), _, _.
  split; [exact Hrun |]. cbn [heap screen].
  split. { rewrite Hcall. apply elem_of_app. right. apply elem_of_cons. by left. }
  split; [apply lookup_insert_eq |]. split; [done |].
  split. { apply column_assigned. cbn [classified assigned].
           by rewrite lookup_insert_ne, lookup_insert_eq. }
  split. { apply column_assigned. cbn [classified assigned].
           by rewrite lookup_insert_eq. }
  unfold short_texts. rewrite !length_fmap. split; [done |]. split; [done |].
  intros i r Hi. rewrite !list_lookup_fmap, Hi. done.
Qed.

End Analysis.

(** ** The loaded frame is never written *)


Section Keeps.

Variable df : nat.

Lemma keeps_pure {A} (m : M A) :
  (∀ σ, heap (m σ).2 = heap σ) → keeps df m (λ _, True).
Proof. intros H σ base Hdf. by rewrite H. Qed.

Lemma keeps_ret {A} (a : A) : keeps df (mret a) (λ _, True).
Proof. by apply keeps_pure. Qed.

Lemma keeps_raise {A} e : keeps df (@raise A e) (λ _, True).
Proof. by apply keeps_pure. Qed.

Lemma keeps_stop {A} : keeps df (@st_stop A) (λ _, True).
Proof. by apply keeps_pure. Qed.

Lemma keeps_lift {A} (t : Try A) : keeps df (lift t) (λ _, True).
Proof. destruct t; by apply keeps_pure. Qed.

Lemma keeps_emit ev : keeps df (emit ev) (λ _, True).
Proof. by apply keeps_pure. Qed.

Lemma keeps_read l : keeps df (read l) (λ _, True).
Proof. apply keeps_pure. intros σ. unfold read. by destruct (heap σ !! l). Qed.

(** A new frame is never the loaded one. *)
Lemma keeps_alloc f : keeps df (alloc f) (λ l, l ≠ df).
Proof.
  intros σ base Hdf. unfold alloc. cbn [fst snd heap]. split.
  - by apply lookup_alloc_old.
  - intros a [= <-]. by eapply fresh_lookup.
Qed.

Lemma keeps_write l f : l ≠ df → keeps df (write l f) (λ _, True).
Proof.
  intros Hne σ base Hdf. unfold write. cbn [fst snd heap].
  by rewrite lookup_insert_ne.
Qed.

Lemma keeps_bind {A B} (m : M A) (k : A → M B) Φ Ψ :
  keeps df m Φ → (∀ a, Φ a → keeps df (k a) Ψ) → keeps df (m ≫= k) Ψ.
Proof.
  intros Hm Hk σ base Hdf. rewrite bind_run.
  destruct (Hm σ base Hdf) as [Hheap Hres].
  destruct (m σ) as [[a|e|] σ']; cbn [fst snd] in *; [|done..].
  apply Hk; [by apply Hres | done].
Qed.

Lemma keeps_try_except {A} (body : M A) handler Φ :
  keeps df body Φ → (∀ e, keeps df (handler e) Φ) →
  keeps df (try_except body handler) Φ.
Proof.
  intros Hm Hk σ base Hdf. unfold try_except.
  destruct (Hm σ base Hdf) as [Hheap Hres].
  destruct (body σ) as [[a|e|] σ']; cbn [fst snd] in *; [done | | done].
  by apply Hk.
Qed.

End Keeps.

Ltac keeps_step :=
  match goal with
  | |- keeps _ (_ ≫= _) _ => eapply keeps_bind; [| intros ? ?]
  | |- keeps _ (mret _) _ => apply keeps_ret
  | |- keeps _ (raise _) _ => apply keeps_raise
  | |- keeps _ st_stop _ => apply keeps_stop
  | |- keeps _ (lift _) _ => apply keeps_lift
  | |- keeps _ (read _) _ => apply keeps_read
  | |- keeps _ (alloc _) _ => apply keeps_alloc
  | |- keeps _ (write _ _) _ => apply keeps_write; assumption
  | |- keeps _ (emit _) _ => apply keeps_emit
  | |- keeps _ (try_except _ _) _ => apply keeps_try_except; [| intros ?]
  | |- keeps _ (if ?b then _ else _) _ => destruct b
  | |- keeps _ (match ?x with _ => _ end) _ => destruct x
  end.

Ltac keeps_auto :=
  unfold getitem_mask, copy, setitem, st_dataframe, st_text, st_error,
    st_warning, st_info, st_radio, st_selectbox, st_select_slider, st_button;
  repeat keeps_step.

Section KeepsScript.

Variable sentiment_pipeline : list string → Try (list Prediction).
Variable wordcloud_generate : string → Try (list (string * nat)).

Lemma keeps_analysis df l :
  l ≠ df →
  keeps df (analysis sentiment_pipeline wordcloud_generate l) (λ _, True).
Proof. intros Hne. unfold analysis, word_cloud, call_model. keeps_auto. Qed.

Lemma keeps_main df inp :
  keeps df (main sentiment_pipeline wordcloud_generate df inp) (λ _, True).
Proof.
  pose proof (keeps_analysis df) as Ha.
  unfold main, products_view, testimonials_view, reviews_view.
  keeps_auto; by apply Ha.
Qed.

Lemma rerun_keeps df base σ inp :
  heap σ !! df = Some base →
  heap (rerun sentiment_pipeline wordcloud_generate df σ inp) !! df = Some base.
Proof. intros Hdf. unfold rerun. by apply keeps_main. Qed.

(** C10: whatever the user does, in whatever order, the loaded frame
    is after every run what it was when it was loaded: the views write
    their columns to frames of their own. *)
Theorem base_collection_unchanged df base σ (actions : list Inputs) :
  heap σ !! df = Some base →
  heap (session sentiment_pipeline wordcloud_generate df σ actions) !! df
  = Some base.
Proof.
  unfold session. revert σ.
  induction actions as [|inp actions IH]; intros σ Hdf; [done |].
  cbn [foldl]. by apply IH, rerun_keeps.
Qed.

End KeepsScript.

(** ** Loading *)

Lemma try_map_length {A B} (f : A → Try B) l l' :
  try_map f l = Ok l' → length l' = length l.
Proof.
  revert l'. induction l as [|x l IH]; intros l' H; simpl in H.
  - by injection H as <-.
  - destruct (f x); [|done]. simpl in H.
    destruct (try_map f l) as [ys|]; [|done]. simpl in H.
    injection H as <-. simpl. by rewrite (IH ys).
Qed.

Lemma try_map_raise {A B} (f : A → Try B) l e :
  try_map f l = Raise e → ∃ x, x ∈ l ∧ f x = Raise e.
Proof.
  induction l as [|x l IH]; intros H; simpl in H; [done |].
  destruct (f x) eqn:E; simpl in H.
  - destruct (try_map f l); [done |]. simpl in H. injection H as ->.
    destruct IH as (y & Hy & Hf); [done |]. exists y. split; [by right | done].
  - injection H as ->. exists x. split; [by left | done].
Qed.

Lemma try_map_ok {A B} (f : A → Try B) l :
  Forall (λ x, ∃ y, f x = Ok y) l → ∃ l', try_map f l = Ok l'.
Proof.
  induction 1 as [|x l [y Hy] _ [l' IH]]; simpl; [by eauto |].
  rewrite Hy, IH. simpl. eauto.
Qed.

Lemma try_map_fails {A B} (f : A → Try B) l x :
  x ∈ l → (∃ e, f x = Raise e) → ∃ y e, y ∈ l ∧ f y = Raise e ∧ try_map f l = Raise e.
Proof.
  intros Hx [e He]. induction l as [|z l IH]; [by apply elem_of_nil in Hx |].
  simpl. destruct (f z) as [b|e'] eqn:E.
  - apply elem_of_cons in Hx as [-> | Hx]; [congruence |].
    destruct (IH Hx) as (y & e'' & Hy & Hfy & Hmap).
    exists y, e''. rewrite Hmap. split; [by right | done].
  - exists z, e'. split; [by left | done].
Qed.

Section Loading.

Variable parse_timestamp : string → option Timestamp.

Lemma to_datetime_cell_raise text e :
  to_datetime_cell parse_timestamp text = Raise e → e = DateParseError text.
Proof.
  unfold to_datetime_cell. destruct (parse_timestamp text); [done |].
  by intros [= <-].
Qed.

Lemma load_data_csv_ok table dates :
  to_datetime parse_timestamp (raw_date <$> table) = Ok dates →
  load_data parse_timestamp (Csv table) = Ok (zip_with with_date table dates) ∧
  length (zip_with with_date table dates) = length table.
Proof.
  intros H. unfold load_data. cbn [read_csv try_bind]. rewrite H.
  split; [done |]. apply try_map_length in H.
  rewrite length_zip_with, H, length_fmap. lia.
Qed.

Lemma load_data_csv_raise table e :
  to_datetime parse_timestamp (raw_date <$> table) = Raise e →
  ∃ r, r ∈ table ∧ parse_timestamp (raw_date r) = None ∧
       e = DateParseError (raw_date r) ∧
       load_data parse_timestamp (Csv table) = Raise e.
Proof.
  intros H. destruct (try_map_raise _ _ _ H) as (text & Hin & Hcell).
  apply list_elem_of_fmap in Hin as (r & -> & Hr).
  pose proof (to_datetime_cell_raise _ _ Hcell) as ->.
  exists r. split; [done |]. split.
  { revert Hcell. unfold to_datetime_cell.
    by destruct (parse_timestamp (raw_date r)). }
  split; [done |].
  unfold load_data. cbn [read_csv try_bind]. by rewrite H.
Qed.

Lemma load_data_empty src :
  load_data parse_timestamp src = Ok [] ↔ src = NoFile ∨ src = Csv [].
Proof.
  split.
  - destruct src as [|why|table]; [by left | done |]. intros H. right.
    destruct (to_datetime parse_timestamp (raw_date <$> table)) as [dates|e] eqn:E.
    + destruct (load_data_csv_ok _ _ E) as [Hload Hlen].
      rewrite Hload in H. injection H as H. rewrite H in Hlen.
      destruct table; [done | discriminate Hlen].
    + destruct (load_data_csv_raise _ _ E) as (r & _ & _ & -> & Hload).
      congruence.
  - by intros [-> | ->].
Qed.

End Loading.

Lemma alloc_run f σ :
  alloc f σ =
  (Done (fresh (dom (heap σ))),
   {| heap := <[fresh (dom (heap σ)) := f]> (heap σ); screen := screen σ |}).
Proof. done. Qed.

(** C7 (amended): [load_data] gives an empty collection, and raises
    nothing, when the file is absent and when the file has no rows, and
    in no other case; the script then shows a message and stops.  A file
    that cannot be read for another reason, and a date that is no date,
    end the run with the error: no row is skipped. *)
Theorem load_empty_or_fatal
    (parse_timestamp : string → option Timestamp)
    (sentiment_pipeline : list string → Try (list Prediction))
    (wordcloud_generate : string → Try (list (string * nat))) :
  load_data parse_timestamp NoFile = Ok [] ∧
  (∀ src, load_data parse_timestamp src = Ok [] ↔ src = NoFile ∨ src = Csv []) ∧
  (∀ why, load_data parse_timestamp (Unreadable why) = Raise (ReadError why)) ∧
  (∀ src inp,
     load_data parse_timestamp src = Ok [] →
     ∃ h,
       script parse_timestamp sentiment_pipeline wordcloud_generate src inp blank =
       (Stopped,
        {| heap := h;
           screen :=
             [Text Header "📊 E-Commerce Sentiment Analysis Dashboard";
              Text Markdown "Analysis of product reviews using Hugging Face Transformers.";
              Message LError "⚠️ File 'data.csv' not found or empty. Please run 'scraper_selenium.py' first!"] |})) ∧
  (∀ table r,
     r ∈ table → parse_timestamp (raw_date r) = None →
     ∃ bad,
       bad ∈ table ∧ parse_timestamp (raw_date bad) = None ∧
       load_data parse_timestamp (Csv table) = Raise (DateParseError (raw_date bad)) ∧
       ∀ inp,
         (script parse_timestamp sentiment_pipeline wordcloud_generate
            (Csv table) inp blank).1 = Raised (DateParseError (raw_date bad))) ∧
  (∀ table,
     Forall (λ r, is_Some (parse_timestamp (raw_date r))) table →
     ∃ loaded,
       load_data parse_timestamp (Csv table) = Ok loaded ∧
       length loaded = length table).
Proof.
  split; [done |]. split; [apply load_data_empty |]. split; [done |].
  split; [| split].
  - intros src inp Hload. unfold script. run. rewrite Hload. run.
    rewrite alloc_run. cbn [heap screen blank].
    erewrite main_empty_run; [| frame_lookup | done].
    cbn [heap screen]. eauto.
  - intros table r Hr Hnone.
    destruct (try_map_fails (to_datetime_cell parse_timestamp) (raw_date <$> table)
                (raw_date r)) as (text & e & Hin & Hcell & Hmap).
    { apply list_elem_of_fmap. eauto. }
    { unfold to_datetime_cell. rewrite Hnone. eauto. }
    destruct (load_data_csv_raise parse_timestamp table e Hmap)
      as (bad & Hbad & Hbadnone & -> & Hload).
    exists bad. split; [done |]. split; [done |]. split; [done |].
    intros inp. unfold script. run. rewrite Hload. by run.
  - intros table Hall.
    destruct (try_map_ok (to_datetime_cell parse_timestamp) (raw_date <$> table))
      as [dates Hdates].
    { apply Forall_fmap. eapply Forall_impl; [exact Hall |].
      intros r [t Ht]. unfold to_datetime_cell. cbn. rewrite Ht. eauto. }
    destruct (load_data_csv_ok parse_timestamp table dates Hdates) as [Hload Hlen].
    eauto.
Qed.

Lemma load_empty_or_fatal_witness :
  ∃ bad,
    bad ∈ [ {| raw_type := "review"; raw_content := "ok"; raw_rating := None;
               raw_date := "yesterday" |} ] ∧
    iso_date (raw_date bad) = None ∧
    load_data iso_date
      (Csv [ {| raw_type := "review"; raw_content := "ok"; raw_rating := None;
                raw_date := "yesterday" |} ])
    = Raise (DateParseError (raw_date bad)) ∧
    ∀ inp,
      (script iso_date sample_pipeline sample_wordcloud
         (Csv [ {| raw_type := "review"; raw_content := "ok"; raw_rating := None;
                   raw_date := "yesterday" |} ]) inp blank).1
      = Raised (DateParseError (raw_date bad)).
Proof.
  destruct (load_empty_or_fatal iso_date sample_pipeline sample_wordcloud)
    as (_ & _ & _ & _ & Hdate & _).
  apply (Hdate _ {| raw_type := "review"; raw_content := "ok"; raw_rating := None;
                    raw_date := "yesterday" |}).
  - apply elem_of_cons. by left.
  - reflexivity.
Defined.

(** C7 as stated fails: a file that is there and has no rows also loads
    as an empty collection. *)
Lemma load_empty_file_present :
  load_data iso_date (Csv []) = Ok [] ∧ Csv [] ≠ NoFile.
Proof. split; [reflexivity | discriminate]. Qed.

(** ** The year options *)

Lemma unique_from_elem seen xs (x : Z) :
  x ∈ unique_from seen xs ↔ x ∈ xs ∧ x ∉ seen.
Proof.
  revert seen. induction xs as [|a xs IH]; intros seen; simpl.
  - split; [by intros ?%elem_of_nil | by intros [?%elem_of_nil _]].
  - case_bool_decide as Ha.
    + rewrite IH, elem_of_cons. intuition (subst; tauto).
    + rewrite !elem_of_cons, IH, elem_of_cons.
      destruct (decide (x = a)); intuition (subst; tauto).
Qed.

Lemma unique_from_nodup seen xs : NoDup (unique_from seen xs).
Proof.
  revert seen. induction xs as [|a xs IH]; intros seen; simpl.
  - constructor.
  - case_bool_decide; [apply IH |]. constructor; [| apply IH].
    rewrite unique_from_elem, elem_of_cons. intuition.
Qed.

Lemma unique_elem xs (x : Z) : x ∈ unique xs ↔ x ∈ xs.
Proof.
  unfold unique. rewrite unique_from_elem. split; [by intros [? _] |].
  intros H. split; [done | by intros ?%elem_of_nil].
Qed.

Lemma insert_desc_perm x xs : insert_desc x xs ≡ₚ x :: xs.
Proof.
  induction xs as [|y xs IH]; simpl; [done |].
  destruct (y <=? x)%Z; [done |]. rewrite IH. apply Permutation_swap.
Qed.

Lemma sorted_reverse_perm xs : sorted_reverse xs ≡ₚ xs.
Proof.
  induction xs as [|x xs IH]; simpl; [done |].
  by rewrite insert_desc_perm, IH.
Qed.


Lemma insert_desc_sorted x xs : descending xs → descending (insert_desc x xs).
Proof.
  unfold descending. induction 1 as [|y xs Hs IH Hall]; simpl.
  - repeat constructor.
  - destruct (y <=? x)%Z eqn:E.
    + apply Z.leb_le in E. constructor; [by constructor |].
      constructor; [done |]. eapply Forall_impl; [exact Hall |].
      intros z Hz. simpl in *. lia.
    + apply Z.leb_gt in E. constructor; [done |].
      rewrite insert_desc_perm. constructor; [lia | done].
Qed.

Lemma sorted_reverse_sorted xs : descending (sorted_reverse xs).
Proof.
  induction xs as [|x xs IH]; simpl; [constructor | by apply insert_desc_sorted].
Qed.

Lemma descending_nodup xs : descending xs → NoDup xs → strictly_descending xs.
Proof.
  unfold descending, strictly_descending.
  induction 1 as [|x xs Hs IH Hall]; intros Hnd; [constructor |].
  apply NoDup_cons in Hnd as [Hx Hnd]. constructor; [by apply IH |].
  apply Forall_forall. intros z Hz.
  pose proof (proj1 (Forall_forall _ _) Hall z Hz) as Hle. simpl in Hle.
  assert (z ≠ x) by (intros ->; done). lia.
Qed.

Lemma is_review_true r : is_review r = true ↔ type r = "review".
Proof. unfold is_review. apply String.eqb_eq. Qed.

Lemma reviews_rows rs r :
  r ∈ rows (boolean_index is_review (new_frame rs)) ↔ r ∈ rs ∧ type r = "review".
Proof.
  rewrite boolean_index_rows. cbn [new_frame rows].
  rewrite list_elem_of_In, filter_In, <- list_elem_of_In, is_review_true. done.
Qed.

Lemma available_years_sorted_unique reviews_df :
  rows reviews_df ≠ [] →
  available_years reviews_df =
  sorted_reverse (unique ((λ r, year (date r)) <$> rows reviews_df)).
Proof.
  intros Hne. unfold available_years.
  destruct (sorted_reverse _) as [|y ys] eqn:E; [|done].
  exfalso. destruct (rows reviews_df) as [|r rs]; [done |].
  assert (year (date r) ∈ sorted_reverse (unique ((λ r, year (date r)) <$> r :: rs))) as Hin.
  { rewrite sorted_reverse_perm, unique_elem, fmap_cons. by left. }
  rewrite E in Hin. by apply elem_of_nil in Hin.
Qed.

Lemma available_years_spec reviews_df :
  rows reviews_df ≠ [] →
  (∀ y, y ∈ available_years reviews_df ↔ ∃ r, r ∈ rows reviews_df ∧ year (date r) = y) ∧
  strictly_descending (available_years reviews_df).
Proof.
  intros Hne. rewrite available_years_sorted_unique by done. split.
  - intros y. rewrite sorted_reverse_perm, unique_elem, list_elem_of_fmap.
    split; intros (r & H1 & H2); exists r; by split.
  - apply descending_nodup; [apply sorted_reverse_sorted |].
    rewrite sorted_reverse_perm. apply unique_from_nodup.
Qed.

Lemma bind_done_run {A B} (m : M A) (k : A → M B) σ a σ1 :
  m σ = (Done a, σ1) → (m ≫= k) σ = k a σ1.
Proof. intros H. by rewrite bind_run, H. Qed.

Lemma st_selectbox_run title opts choice σ :
  st_selectbox title opts choice σ =
  (Done (picked opts choice),
   {| heap := heap σ; screen := screen σ ++ [Selectbox title opts] |}).
Proof. done. Qed.

(** One call is run and the rest of the program is left as it is. *)
Ltac run_call :=
  erewrite bind_done_run;
  [| first [ apply emit_run
           | apply st_selectbox_run
           | apply getitem_mask_run; frame_lookup
           | apply copy_run; frame_lookup
           | apply read_run; frame_lookup ] ];
  cbn [heap screen].

Lemma available_years_fallback reviews_df :
  rows reviews_df = [] → available_years reviews_df = [2023%Z].
Proof. intros H. unfold available_years. by rewrite H. Qed.

(** C8 (amended): when there are reviews, the year options are the
    years of the reviews, each once, from the latest to the earliest,
    and the list is not empty.  When there is no review, the view shows
    "No reviews found." and offers no year at all: the fallback year is
    behind that test and is never reached. *)
Theorem year_options (rs : list Row) :
  let reviews_df := boolean_index is_review (new_frame rs) in
  (rows reviews_df ≠ [] →
     available_years reviews_df =
       sorted_reverse (unique ((λ r, year (date r)) <$> rows reviews_df)) ∧
     (∀ y, y ∈ available_years reviews_df ↔
           ∃ r, r ∈ rs ∧ type r = "review" ∧ year (date r) = y) ∧
     strictly_descending (available_years reviews_df) ∧
     available_years reviews_df ≠ [] ∧
     ∀ sentiment_pipeline wordcloud_generate df inp σ,
       heap σ !! df = Some (new_frame rs) →
       Selectbox "Select Year:" (available_years reviews_df) ∈
         screen (reviews_view sentiment_pipeline wordcloud_generate df inp σ).2) ∧
  (rows reviews_df = [] →
     ∀ sentiment_pipeline wordcloud_generate df inp σ,
       heap σ !! df = Some (new_frame rs) →
       (reviews_view sentiment_pipeline wordcloud_generate df inp σ).1 = Done () ∧
       screen (reviews_view sentiment_pipeline wordcloud_generate df inp σ).2 =
         screen σ ++ [Text Header "📝 Review Analysis (AI Powered)";
                      Message LWarning "No reviews found."]).
Proof.
  intros reviews_df. split.
  - intros Hne. destruct (available_years_spec reviews_df Hne) as [Helem Hsorted].
    split; [by apply available_years_sorted_unique |].
    split.
    { intros y. rewrite Helem. split.
      - intros (r & [Hr Ht]%reviews_rows & Hy). eauto.
      - intros (r & Hr & Ht & Hy). exists r. split; [by apply reviews_rows | done]. }
    split; [done |]. split.
    { rewrite available_years_sorted_unique by done.
      destruct (rows reviews_df) as [|r rest] eqn:E; [done |].
      intros Hnil.
      assert (year (date r) ∈ sorted_reverse (unique ((λ r, year (date r)) <$> r :: rest))) as Hin.
      { rewrite sorted_reverse_perm, unique_elem, fmap_cons. by left. }
      rewrite Hnil in Hin. by apply elem_of_nil in Hin. }
    intros sentiment_pipeline wordcloud_generate df inp σ Hdf.
    unfold reviews_view, st_text. do 4 run_call.
    assert (empty_frame (boolean_index is_review (new_frame rs)) = false) as ->.
    { apply not_true_is_false. by rewrite empty_frame_true. }
    run_call. apply emits_elem with (P := λ _, True).
    + unfold analysis, word_cloud, call_model. emits_auto.
    + cbn [screen]. apply elem_of_app. right. by left.
  - intros Hnone sentiment_pipeline wordcloud_generate df inp σ Hdf.
    destruct (reviews_view_none_run sentiment_pipeline wordcloud_generate
                df inp (new_frame rs) σ Hdf) as (h & ->).
    { by rewrite <- boolean_index_rows. }
    done.
Qed.

Lemma year_options_witness :
  Selectbox "Select Year:"
    (available_years (boolean_index is_review (new_frame sample_table))) ∈
  screen (reviews_view sample_pipeline sample_wordcloud 0 (on_reviews 0 2 true)
            sample_state).2.
Proof.
  destruct (year_options sample_table) as [Hsome _].
  apply Hsome; [vm_compute; discriminate | reflexivity].
Defined.

(** C8 as stated fails: with no review in the file, no year is
    offered, the fallback year included. *)
Lemma no_reviews_no_year_offered :
  screen (script iso_date sample_pipeline sample_wordcloud (Csv products_only)
            (on_reviews 0 0 false) blank).2 =
  [Text Header "📊 E-Commerce Sentiment Analysis Dashboard";
   Text Markdown "Analysis of product reviews using Hugging Face Transformers.";
   Text Header "Navigation";
   Radio "Go to:" ["Products"; "Testimonials"; "Reviews"];
   Text Header "📝 Review Analysis (AI Powered)";
   Message LWarning "No reviews found."] ∧
  Selectbox "Select Year:" [2023%Z] ∉
    screen (script iso_date sample_pipeline sample_wordcloud (Csv products_only)
              (on_reviews 0 0 false) blank).2.
Proof.
  split; [vm_compute; reflexivity |].
  vm_compute. intros Hin. apply list_elem_of_In in Hin.
  repeat (destruct Hin as [Hin | Hin]; [discriminate Hin |]). exact Hin.
Qed.


Lemma new_frame_index p rs :
  boolean_index p (new_frame rs) = new_frame (List.filter p rs).
Proof.
  unfold boolean_index, new_frame. cbn [rows assigned].
  by rewrite select_mask_filter, fmap_empty.
Qed.

Section ReviewsRuns.

Variable sentiment_pipeline : list string → Try (list Prediction).
Variable wordcloud_generate : string → Try (list (string * nat)).

(** The run of the Reviews view up to the button, for a window with
    reviews in it. *)
Lemma reviews_view_window_run df inp f σ name m :
  heap σ !! df = Some f →
  picked months (month_choice inp) = Some name →
  month_index name = Ok m →
  let reviews_df := boolean_index is_review f in
  let selected_year := picked (available_years reviews_df) (year_choice inp) in
  let filtered := boolean_index (in_window selected_year m) reviews_df in
  rows filtered ≠ [] →
  ∃ l h cells,
    h !! l = Some filtered ∧
    columns filtered ["date"; "content"] = Ok cells ∧
    reviews_view sentiment_pipeline wordcloud_generate df inp σ =
    (if analysis_pressed inp
     then analysis sentiment_pipeline wordcloud_generate l
     else mret ())
      {| heap := h;
         screen := screen σ ++
           [Text Header "📝 Review Analysis (AI Powered)";
            Selectbox "Select Year:" (available_years reviews_df);
            SelectSlider "Select Month:" months;
            Text Subheader ("Reviews in " +:+ name +:+ " " +:+ show_year selected_year);
            Text Written ("Count: " +:+ pretty (length (rows filtered)));
            Text Markdown "### Preview of Reviews";
            Table ["date"; "content"] cells;
            Button "Start Sentiment Analysis 🚀"] |}.
Proof.
  intros Hdf Hname Hm reviews_df selected_year filtered Hsome.
  assert (rows reviews_df ≠ []) as Hreviews.
  { intros Hnil. apply Hsome. unfold filtered.
    by rewrite boolean_index_rows, Hnil. }
  destruct (column_of_file filtered "date") as (c1 & Hc1); [set_solver |].
  destruct (column_of_file filtered "content") as (c2 & Hc2); [set_solver |].
  assert (columns filtered ["date"; "content"] = Ok [c1; c2]) as Hcols.
  { unfold columns. cbn [try_map]. by rewrite Hc1, Hc2. }
  unfold reviews_view. run. fold reviews_df.
  assert (empty_frame reviews_df = false) as ->.
  { apply not_true_is_false. by rewrite empty_frame_true. }
  unfold st_selectbox, st_select_slider. rewrite Hname. run.
  rewrite Hm. run. fold selected_year. fold filtered.
  assert (empty_frame filtered = false) as ->.
  { apply not_true_is_false. by rewrite empty_frame_true. }
  run.
  erewrite st_dataframe_run; [| frame_lookup | exact Hcols].
  unfold st_button. run. rewrite <- !app_assoc. cbn [app].
  eexists _, _, _. split; [| split; [exact Hcols | reflexivity]].
  frame_lookup.
Qed.

End ReviewsRuns.

(** C3: the reviews the view works on for a year and a month are the
    rows of the file that are reviews dated in that year and that
    month, all of them and no other, in the order of the file; months
    count from January as 1.  When no review matches, the result is
    empty and the view says so with a note, raising nothing; when some
    match, the view counts and shows exactly them, and the frame it
    hands to the analysis has exactly them as rows. *)
Theorem time_window_filter (rs : list Row) (y m : Z) :
  let reviews_df := boolean_index is_review (new_frame rs) in
  let filtered := rows (boolean_index (in_window (Some y) m) reviews_df) in
  (∀ r, r ∈ filtered ↔
        r ∈ rs ∧ type r = "review" ∧ year (date r) = y ∧ month (date r) = m) ∧
  filtered = List.filter (λ r, is_review r && in_window (Some y) m r) rs ∧
  (∀ k name, months !! k = Some name → month_index name = Ok (Z.of_nat k + 1)%Z) ∧
  ((∀ r, r ∈ rs → ¬ (type r = "review" ∧ year (date r) = y ∧ month (date r) = m)) →
   filtered = []) ∧
  (∀ sentiment_pipeline wordcloud_generate df inp σ name,
     heap σ !! df = Some (new_frame rs) →
     rows reviews_df ≠ [] →
     picked (available_years reviews_df) (year_choice inp) = Some y →
     picked months (month_choice inp) = Some name →
     month_index name = Ok m →
     filtered = [] →
     ∃ σ',
       reviews_view sentiment_pipeline wordcloud_generate df inp σ = (Done (), σ') ∧
       last (screen σ') = Some (Message LInfo "No reviews found for this time period.")) ∧
  (∀ sentiment_pipeline wordcloud_generate df inp σ name,
     heap σ !! df = Some (new_frame rs) →
     picked (available_years reviews_df) (year_choice inp) = Some y →
     picked months (month_choice inp) = Some name →
     month_index name = Ok m →
     filtered ≠ [] →
     ∃ filtered_reviews h,
       h !! filtered_reviews = Some (new_frame filtered) ∧
       reviews_view sentiment_pipeline wordcloud_generate df inp σ =
       (if analysis_pressed inp
        then analysis sentiment_pipeline wordcloud_generate filtered_reviews
        else mret ())
         {| heap := h;
            screen := screen σ ++
              [Text Header "📝 Review Analysis (AI Powered)";
               Selectbox "Select Year:" (available_years reviews_df);
               SelectSlider "Select Month:" months;
               Text Subheader ("Reviews in " +:+ name +:+ " " +:+ show_year (Some y));
               Text Written ("Count: " +:+ pretty (length filtered));
               Text Markdown "### Preview of Reviews";
               Table ["date"; "content"]
                 [(λ r, CDate (date r)) <$> filtered;
                  (λ r, CText (content r)) <$> filtered];
               Button "Start Sentiment Analysis 🚀"] |}).
Proof.
  intros reviews_df filtered.
  assert (filtered = List.filter (λ r, is_review r && in_window (Some y) m r) rs) as Hf.
  { unfold filtered, reviews_df. rewrite !boolean_index_rows. cbn [new_frame rows].
    apply filter_filter_and. }
  assert (∀ r, r ∈ filtered ↔
               r ∈ rs ∧ type r = "review" ∧ year (date r) = y ∧ month (date r) = m) as Hin.
  { intros r. rewrite Hf, list_elem_of_In, filter_In, <- list_elem_of_In.
    rewrite andb_true_iff, is_review_true. unfold in_window, year_is.
    rewrite andb_true_iff, !Z.eqb_eq. tauto. }
  split; [done |]. split; [done |]. split; [apply month_index_lookup |].
  split; [| split].
  - intros Hnone. destruct filtered as [|r rest]; [done |]. exfalso.
    destruct (proj1 (Hin r)) as (Hr & Hmatch); [by left |]. by apply (Hnone r).
  - intros sentiment_pipeline wordcloud_generate df inp σ name
      Hdf Hsome Hyear Hname Hm Hempty.
    destruct (reviews_view_empty_window_run sentiment_pipeline wordcloud_generate
                df inp (new_frame rs) σ name m Hdf) as (h & Hrun); try done.
    { by rewrite <- boolean_index_rows. }
    { fold reviews_df. rewrite Hyear, <- boolean_index_rows. exact Hempty. }
    eexists. split; [exact Hrun |]. cbn [screen].
    by rewrite last_app_cons.
  - intros sentiment_pipeline wordcloud_generate df inp σ name
      Hdf Hyear Hname Hm Hsome.
    destruct (reviews_view_window_run sentiment_pipeline wordcloud_generate
                df inp (new_frame rs) σ name m Hdf Hname Hm)
      as (l & h & cells & Hl & Hcells & Hrun).
    { fold reviews_df. rewrite Hyear. exact Hsome. }
    fold reviews_df in Hl, Hcells, Hrun. rewrite Hyear in Hl, Hcells, Hrun.
    assert (boolean_index (in_window (Some y) m) reviews_df = new_frame filtered) as Hframe.
    { unfold filtered, reviews_df. by rewrite !new_frame_index. }
    fold filtered in Hrun. rewrite Hframe in Hl, Hcells.
    assert (cells = [(λ r, CDate (date r)) <$> filtered;
                     (λ r, CText (content r)) <$> filtered]) as ->.
    { destruct filtered; [done |]. by injection Hcells as <-. }
    exists l, h. split; [exact Hl | exact Hrun].
Qed.

Lemma time_window_filter_witness :
  (∃ σ',
     reviews_view sample_pipeline sample_wordcloud 0 (on_reviews 0 0 false) sample_state
     = (Done (), σ') ∧
     last (screen σ') = Some (Message LInfo "No reviews found for this time period.")) ∧
  (∃ filtered_reviews h,
     h !! filtered_reviews =
       Some (new_frame
               [ {| type := "review"; content := "great product"; rating := None;
                    date := {| year := 2023; month := 3; day := 14 |} |};
                 {| type := "review"; content := "ok"; rating := None;
                    date := {| year := 2023; month := 3; day := 20 |} |} ]) ∧
     reviews_view sample_pipeline sample_wordcloud 0 (on_reviews 0 2 false) sample_state =
     (Done (),
      {| heap := h;
         screen :=
           [Text Header "📝 Review Analysis (AI Powered)";
            Selectbox "Select Year:" [2023%Z; 2022%Z];
            SelectSlider "Select Month:" months;
            Text Subheader "Reviews in March 2023";
            Text Written "Count: 2";
            Text Markdown "### Preview of Reviews";
            Table ["date"; "content"]
              [[CDate {| year := 2023; month := 3; day := 14 |};
                CDate {| year := 2023; month := 3; day := 20 |}];
               [CText "great product"; CText "ok"]];
            Button "Start Sentiment Analysis 🚀"] |})).
Proof.
  split.
  - destruct (time_window_filter sample_table 2023 1) as (_ & _ & _ & _ & Hrun & _).
    apply (Hrun sample_pipeline sample_wordcloud 0 (on_reviews 0 0 false)
             sample_state "January");
      first [reflexivity | vm_compute; discriminate].
  - destruct (time_window_filter sample_table 2023 3) as (_ & _ & _ & _ & _ & Hrun).
    destruct (Hrun sample_pipeline sample_wordcloud 0 (on_reviews 0 2 false)
                sample_state "March") as (l & h & Hl & Hview);
      first [reflexivity | vm_compute; discriminate | idtac].
    exists l, h. split; [exact Hl | exact Hview].
Defined.

(** C9 fails on the code: when no product has a delimiter, the split
    has one column only, asking for the price column raises, and the
    Products view ends with the error. *)
Theorem no_delimiter_raises :
  product_names ["Product: Widget"] = Ok [Some "Widget"] ∧
  product_prices ["Product: Widget"] = Raise (KeyError "1") ∧
  (script iso_date sample_pipeline sample_wordcloud (Csv unpriced_product)
     on_products blank).1 = Raised (KeyError "1").
Proof. repeat split; vm_compute; reflexivity. Qed.

Lemma classifier_order_preserved_witness :
  ∃ σ' f' sentiments confidences,
    analysis sample_pipeline sample_wordcloud 0 sample_state = (Done (), σ') ∧
    ModelCall (short_texts (content <$> rows (new_frame sample_table))) ∈ screen σ' ∧
    heap σ' !! 0 = Some f' ∧
    rows f' = rows (new_frame sample_table) ∧
    column f' "sentiment" = Ok sentiments ∧
    column f' "confidence" = Ok confidences ∧
    length sentiments = length (rows (new_frame sample_table)) ∧
    length confidences = length (rows (new_frame sample_table)) ∧
    ∀ i r, rows (new_frame sample_table) !! i = Some r →
      sentiments !! i
      = Some (CText (label (sample_classify (PyStr.take 512 (content r))))) ∧
      confidences !! i
      = Some (CScore (score (sample_classify (PyStr.take 512 (content r))))).
Proof.
  apply (classifier_order_preserved sample_classify sample_pipeline
           (λ texts, eq_refl) sample_wordcloud 0 (new_frame sample_table)
           sample_state).
  reflexivity.
Defined.

Lemma base_collection_unchanged_witness :
  heap (session sample_pipeline sample_wordcloud 0 sample_state
          [on_products; on_reviews 0 2 true; on_reviews 1 2 true; on_products])
    !! 0 = Some (new_frame sample_table).
Proof.
  apply (base_collection_unchanged sample_pipeline sample_wordcloud 0
           (new_frame sample_table) sample_state).
  reflexivity.
Defined.

(** * Further properties of the script *)

(** ** Splitting and joining *)

Lemma prefix_drop p s :
  String.prefix p s = true → s = p +:+ PyStr.drop (String.length p) s.
Proof.
  revert s. induction p as [|c p IH]; intros s H.
  - by destruct s.
  - destruct s as [|d s]; [done |]. simpl in H.
    destruct (ascii_dec c d) as [<-|]; [|done].
    rewrite append_cons. simpl. by rewrite <- IH.
Qed.

Lemma find_split sub s i :
  PyStr.find sub s = Some i →
  s = PyStr.take i s +:+ sub +:+ PyStr.drop (i + String.length sub) s.
Proof.
  revert i. induction s as [|c s IH]; intros i H.
  - cbn [PyStr.find] in H. destruct (String.prefix sub "") eqn:E; [|done].
    injection H as <-. by apply prefix_drop.
  - rewrite find_cons in H. destruct (String.prefix sub (String c s)) eqn:E.
    + injection H as <-. by apply prefix_drop.
    + destruct (PyStr.find sub s) as [j|]; [|done]. injection H as <-.
      simpl. rewrite append_cons. f_equal. by apply IH.
Qed.

Lemma split_not_nil sep n s : PyStr.split sep n s ≠ [].
Proof. destruct n; simpl; [done |]. by destruct (PyStr.find sep s). Qed.

Lemma split_length sep n s : 1 ≤ length (PyStr.split sep n s) ≤ S n.
Proof.
  revert s. induction n as [|n IH]; intros s; [simpl; lia |].
  cbn [PyStr.split]. destruct (PyStr.find sep s) as [i|]; [| simpl; lia].
  specialize (IH (PyStr.drop (i + String.length sep) s)). simpl. lia.
Qed.

Lemma join_cons sep p ps :
  ps ≠ [] → PyStr.join sep (p :: ps) = p +:+ sep +:+ PyStr.join sep ps.
Proof. by destruct ps. Qed.

(** X1: splitting loses nothing: the parts of [s.split(sep, n)], joined
    again with [sep], are [s]; and there are at least one and at most
    [n + 1] parts. *)
Theorem split_join_round_trip (sep : string) (n : nat) (s : string) :
  sep ≠ "" →
  PyStr.join sep (PyStr.split sep n s) = s ∧
  1 ≤ length (PyStr.split sep n s) ≤ S n.
Proof.
  intros _. revert s. induction n as [|n IH]; intros s; [simpl; split; [done | lia] |].
  cbn [PyStr.split]. destruct (PyStr.find sep s) as [i|] eqn:E; [|simpl; split; [done | lia]].
  destruct (IH (PyStr.drop (i + String.length sep) s)) as [Hjoin Hlen].
  split.
  - rewrite join_cons by apply split_not_nil. rewrite Hjoin.
    symmetry. by apply find_split.
  - simpl. lia.
Qed.

Lemma split_join_round_trip_witness :
  PyStr.join " - " (PyStr.split " - " 1 "Product: A - B - 19.99")
  = "Product: A - B - 19.99" ∧
  1 ≤ length (PyStr.split " - " 1 "Product: A - B - 19.99") ≤ 2.
Proof. apply (split_join_round_trip " - " 1 "Product: A - B - 19.99"). discriminate. Defined.

(** ** The product columns *)

Lemma contains_true_find sub s :
  PyStr.contains sub s = true → ∃ i, PyStr.find sub s = Some i.
Proof. unfold PyStr.contains. destruct (PyStr.find sub s); [by eauto | done]. Qed.

Lemma product_names_ok (contents : list string) :
  contents ≠ [] →
  ∃ names, product_names contents = Ok names ∧
           length names = length contents ∧
           Forall is_Some names.
Proof.
  intros Hne. unfold product_names, expanded_column.
  destruct contents as [|s rest]; [done |].
  pose proof (expanded_width_row " - " 1 (s :: rest) 0 s eq_refl) as Hw.
  destruct (split_length " - " 1 s) as [Hlen _].
  rewrite decide_True by lia. cbn [try_bind].
  eexists. split; [done |]. unfold str_replace, str_split_expand. cbn [parts].
  split; [by rewrite !length_fmap |].
  rewrite <- !list_fmap_compose. apply Forall_fmap, Forall_true. intros t.
  pose proof (split_not_nil " - " 1 t) as Ht. cbn [compose].
  destruct (PyStr.split " - " 1 t); [done | by eexists].
Qed.

(** The cases of the two product columns, for contents that are text. *)
Lemma product_columns_cases (contents : list string) :
  contents ≠ [] →
  (product_prices contents = Raise (KeyError "1") ↔
   Forall (λ s, PyStr.contains " - " s = false) contents) ∧
  (∀ e, product_prices contents = Raise e → e = KeyError "1") ∧
  (∀ prices, product_prices contents = Ok prices → length prices = length contents) ∧
  (∃ names, product_names contents = Ok names ∧
            length names = length contents ∧
            Forall is_Some names).
Proof.
  intros Hne.
  assert (∀ e, product_prices contents = Raise e → e = KeyError "1") as Hexn.
  { intros e. unfold product_prices, expanded_column.
    destruct (decide _); cbn [try_bind]; [done | by intros [= <-]]. }
  split; [| split; [done | split; [| by apply product_names_ok]]].
  - split; [| by apply product_prices_no_delimiter].
    intros Hraise. apply Forall_forall. intros s Hs.
    destruct (PyStr.contains " - " s) eqn:E; [exfalso | done].
    apply contains_true_find in E as [i Hi].
    apply list_elem_of_lookup in Hs as [k Hk].
    destruct (expanded_column_row " - " 1 contents 1 k s Hk) as (cells & Hc & _).
    { cbn [PyStr.split]. rewrite Hi. simpl. lia. }
    unfold product_prices in Hraise. by rewrite Hc in Hraise.
  - intros prices. unfold product_prices, expanded_column.
    destruct (decide _); cbn [try_bind]; [|done]. intros [= <-].
    unfold to_numeric, str_split_expand. cbn [parts]. by rewrite !length_fmap.
Qed.

(** X2: the price column exists exactly when some product text has the
    delimiter.  For a non-empty column of contents that are text,
    [product_prices] raises [KeyError] exactly when no content contains
    " - ", and when it does not raise there is one price cell per
    content. *)
Theorem product_prices_raise_iff (contents : list string) :
  contents ≠ [] →
  (product_prices contents = Raise (KeyError "1") ↔
   Forall (λ s, PyStr.contains " - " s = false) contents) ∧
  (∀ prices, product_prices contents = Ok prices → length prices = length contents).
Proof.
  intros Hne.
  destruct (product_columns_cases contents Hne) as (Hiff & _ & Hlen & _).
  split; [exact Hiff | exact Hlen].
Qed.

Lemma product_prices_raise_iff_witness :
  product_prices ["Product: Widget"; "Product: Gadget"] = Raise (KeyError "1") ↔
  Forall (λ s, PyStr.contains " - " s = false) ["Product: Widget"; "Product: Gadget"].
Proof.
  apply (product_prices_raise_iff ["Product: Widget"; "Product: Gadget"]).
  discriminate.
Defined.

(** ** The Products view *)

(** The three runs of the Products view. *)
Lemma products_view_run df f σ :
  heap σ !! df = Some f →
  let products := List.filter is_product (rows f) in
  let contents := content <$> products in
  (products = [] →
   ∃ h, products_view df σ =
        (Done (),
         {| heap := h;
            screen := screen σ ++
              [Text Header "🛍️ Products";
               Message LWarning "No products found in data.csv."] |})) ∧
  (products ≠ [] →
   ∀ names prices,
     product_names contents = Ok names →
     product_prices contents = Ok prices →
     length names = length products ∧
     length prices = length products ∧
     ∃ h, products_view df σ =
          (Done (),
           {| heap := h;
              screen := screen σ ++
                [Text Header "🛍️ Products";
                 Message LInfo (pretty (length products) +:+ " products found.");
                 Table ["Product Name"; "Price"]
                   [text_cell <$> names; number_cell <$> prices]] |})) ∧
  (products ≠ [] →
   ∀ e, product_prices contents = Raise e →
     ∃ h, products_view df σ =
          (Raised e,
           {| heap := h;
              screen := screen σ ++
                [Text Header "🛍️ Products";
                 Message LInfo (pretty (length products) +:+ " products found.")] |})).
Proof.
  intros Hdf products contents.
  assert (rows (boolean_index is_product f) = products) as Hrows
    by apply boolean_index_rows.
  assert (contents ≠ [] ↔ products ≠ []) as Hcontents.
  { unfold contents. by destruct products. }
  split; [| split].
  - intros Hnone. unfold products_view. run.
    assert (empty_frame (boolean_index is_product f) = true) as ->.
    { apply empty_frame_true. by rewrite Hrows. }
    cbn [negb]. run. rewrite <- app_assoc. eauto.
  - intros Hsome names prices Hnames Hprices.
    destruct (product_columns_cases contents) as (_ & _ & Hplen & names' & Hn' & Hnlen & _);
      [by apply Hcontents |].
    rewrite Hnames in Hn'. injection Hn' as <-.
    specialize (Hplen prices Hprices). unfold contents in Hnlen, Hplen.
    rewrite length_fmap in Hnlen, Hplen.
    split; [done |]. split; [done |].
    unfold products_view. run.
    assert (empty_frame (boolean_index is_product f) = false) as ->.
    { apply not_true_is_false. rewrite empty_frame_true, Hrows. done. }
    cbn [negb]. run. rewrite Hrows. fold products. fold contents.
    rewrite Hnames. run.
    erewrite setitem_run;
      [| frame_lookup | apply assign_ok; by rewrite length_fmap, Hrows].
    run. rewrite Hprices. run.
    erewrite setitem_run;
      [| frame_lookup | apply assign_ok; cbn [rows]; by rewrite length_fmap, Hrows].
    run.
    erewrite st_dataframe_run; [| frame_lookup |].
    2:{ unfold columns. cbn [try_map].
        erewrite (column_assigned _ "Product Name");
          [| cbn [assigned]; by rewrite lookup_insert_ne, lookup_insert_eq].
        erewrite (column_assigned _ "Price");
          [| cbn [assigned]; by rewrite lookup_insert_eq].
        done. }
    cbn [heap screen]. rewrite <- !app_assoc. eauto.
  - intros Hsome e Hprices.
    destruct (product_names_ok contents) as (names & Hnames & Hnlen & _);
      [by apply Hcontents |].
    unfold contents in Hnlen. rewrite length_fmap in Hnlen.
    unfold products_view. run.
    assert (empty_frame (boolean_index is_product f) = false) as ->.
    { apply not_true_is_false. rewrite empty_frame_true, Hrows. done. }
    cbn [negb]. run. rewrite Hrows. fold products. fold contents.
    rewrite Hnames. run.
    erewrite setitem_run;
      [| frame_lookup | apply assign_ok; by rewrite length_fmap, Hrows].
    run. rewrite Hprices. run. rewrite <- !app_assoc. eauto.
Qed.

(** X3: what the Products view shows.  Without a product row it shows
    a warning and nothing else.  With product rows it tells how many
    there are; then, when some product text has the delimiter, it shows
    one name and one price per product, in the order of the file, and
    ends normally; and when none has it, the run ends with [KeyError]
    after the count, without a table. *)
Theorem products_view_shows df f σ :
  heap σ !! df = Some f →
  let products := List.filter is_product (rows f) in
  let contents := content <$> products in
  (products = [] →
   ∃ h, products_view df σ =
        (Done (),
         {| heap := h;
            screen := screen σ ++
              [Text Header "🛍️ Products";
               Message LWarning "No products found in data.csv."] |})) ∧
  (products ≠ [] →
   ∀ names prices,
     product_names contents = Ok names →
     product_prices contents = Ok prices →
     length names = length products ∧
     length prices = length products ∧
     ∃ h, products_view df σ =
          (Done (),
           {| heap := h;
              screen := screen σ ++
                [Text Header "🛍️ Products";
                 Message LInfo (pretty (length products) +:+ " products found.");
                 Table ["Product Name"; "Price"]
                   [text_cell <$> names; number_cell <$> prices]] |})) ∧
  (products ≠ [] →
   ∀ e, product_prices contents = Raise e →
     ∃ h, products_view df σ =
          (Raised e,
           {| heap := h;
              screen := screen σ ++
                [Text Header "🛍️ Products";
                 Message LInfo (pretty (length products) +:+ " products found.")] |})).
Proof.
  intros Hdf products contents.
  destruct (products_view_run df f σ Hdf) as (Hnone & Hsome & Hraise).
  split; [exact Hnone |]. split; [exact Hsome | exact Hraise].
Qed.

Lemma products_view_shows_witness :
  ∃ h, products_view 0 sample_state =
       (Done (),
        {| heap := h;
           screen := screen sample_state ++
             [Text Header "🛍️ Products";
              Message LInfo
                (pretty (length (List.filter is_product (rows (new_frame sample_table))))
                 +:+ " products found.");
              Table ["Product Name"; "Price"]
                [text_cell <$> [Some "Laptop"];
                 number_cell <$> [Some {| coefficient := 99999; exponent := -2 |}]]] |}).
Proof.
  destruct (products_view_shows 0 (new_frame sample_table) sample_state)
    as (_ & Hsome & _); [reflexivity |].
  apply Hsome; [vm_compute; discriminate | reflexivity | reflexivity].
Defined.

(** ** The Testimonials view *)

(** The run of the Testimonials view. *)
Lemma testimonials_view_run df rs σ :
  heap σ !! df = Some (new_frame rs) →
  let testimonials := List.filter is_testimonial rs in
  ∃ h,
    testimonials_view df σ =
    (Done (),
     {| heap := h;
        screen := screen σ ++
          Text Header "⭐ Customer Testimonials" ::
          match testimonials with
          | [] => [Message LWarning "No testimonials found in data.csv."]
          | _ =>
              [Message LInfo (pretty (length testimonials) +:+ " testimonials found.");
               Table ["content"; "rating"]
                 [(λ r, CText (content r)) <$> testimonials;
                  (λ r, rating_cell (rating r)) <$> testimonials]]
          end |}).
Proof.
  intros Hdf testimonials. unfold testimonials_view. run.
  rewrite new_frame_index. fold testimonials.
  destruct testimonials as [|r rest] eqn:E.
  - cbn [empty_frame new_frame rows negb]. run. rewrite <- app_assoc. eauto.
  - cbn [empty_frame new_frame rows negb]. run.
    erewrite st_dataframe_run; [| frame_lookup | reflexivity].
    cbn [heap screen new_frame rows]. rewrite <- !app_assoc. eauto.
Qed.

(** X4: the Testimonials view shows the content and the rating of the
    testimonial rows of the file, all of them, in the order of the
    file, with their number, or a warning when there is none; it never
    raises. *)
Theorem testimonials_view_shows df rs σ :
  heap σ !! df = Some (new_frame rs) →
  let testimonials := List.filter is_testimonial rs in
  ∃ h,
    testimonials_view df σ =
    (Done (),
     {| heap := h;
        screen := screen σ ++
          Text Header "⭐ Customer Testimonials" ::
          match testimonials with
          | [] => [Message LWarning "No testimonials found in data.csv."]
          | _ =>
              [Message LInfo (pretty (length testimonials) +:+ " testimonials found.");
               Table ["content"; "rating"]
                 [(λ r, CText (content r)) <$> testimonials;
                  (λ r, rating_cell (rating r)) <$> testimonials]]
          end |}).
Proof.
  intros Hdf testimonials.
  destruct (testimonials_view_run df rs σ Hdf) as [h Hrun].
  exists h. exact Hrun.
Qed.

Lemma testimonials_view_shows_witness :
  ∃ h,
    testimonials_view 0 sample_state =
    (Done (),
     {| heap := h;
        screen :=
          [Text Header "⭐ Customer Testimonials";
           Message LInfo "1 testimonials found.";
           Table ["content"; "rating"] [[CText "Fast delivery"]; [CRating 5]]] |}).
Proof.
  destruct (testimonials_view_shows 0 sample_table sample_state eq_refl) as [h Hrun].
  exists h. exact Hrun.
Defined.

(** ** When the model is called *)

Lemma emits_after_button P title pressed {B} (k : bool → M B) :
  P (Button title) → emits P (k pressed) →
  emits P (st_button title pressed ≫= k).
Proof.
  intros Hev Hk σ. unfold st_button.
  rewrite bind_run, bind_run, emit_run, ret_run.
  destruct (Hk {| heap := heap σ; screen := screen σ ++ [Button title] |})
    as (evs & -> & Hevs).
  exists (Button title :: evs). cbn [screen]. rewrite <- app_assoc.
  split; [done | by constructor].
Qed.

Lemma emits_after_radio P title opts choice {B} (k : option string → M B) :
  P (Radio title opts) → emits P (k (picked opts choice)) →
  emits P (st_radio title opts choice ≫= k).
Proof.
  intros Hev Hk σ. unfold st_radio.
  rewrite bind_run, bind_run, emit_run, ret_run.
  destruct (Hk {| heap := heap σ; screen := screen σ ++ [Radio title opts] |})
    as (evs & -> & Hevs).
  exists (Radio title opts :: evs). cbn [screen]. rewrite <- app_assoc.
  split; [done | by constructor].
Qed.

(** As [emits_auto], but the button and the navigation are followed
    with the value they return. *)
Ltac emits_widgets :=
  unfold getitem_mask, copy, setitem, st_dataframe, st_text, st_error,
    st_warning, st_info, st_selectbox, st_select_slider;
  repeat first
    [ apply emits_after_button; [done |]
    | apply emits_after_radio; [done |]
    | emits_step ].

Section ModelCalls.

Variable parse_timestamp : string → option Timestamp.
Variable sentiment_pipeline : list string → Try (list Prediction).
Variable wordcloud_generate : string → Try (list (string * nat)).

Lemma reviews_view_not_pressed df inp :
  analysis_pressed inp = false →
  emits not_model_call (reviews_view sentiment_pipeline wordcloud_generate df inp).
Proof.
  intros Hpressed. unfold reviews_view. rewrite Hpressed. emits_widgets.
Qed.

Lemma main_quiet df inp :
  analysis_pressed inp = false ∨ picked options (navigation inp) ≠ Some "Reviews" →
  emits not_model_call (main sentiment_pipeline wordcloud_generate df inp).
Proof.
  intros Hquiet. unfold main.
  apply emits_bind; [emits_auto |]. intros loaded.
  apply emits_bind; [emits_auto |]. intros _.
  apply emits_bind; [emits_auto |]. intros _.
  apply emits_after_radio; [done |].
  case_bool_decide; [unfold products_view; emits_auto |].
  case_bool_decide; [unfold testimonials_view; emits_auto |].
  case_bool_decide as Hreviews; [| emits_auto].
  destruct Hquiet as [Hpressed | Hnav]; [| done].
  by apply reviews_view_not_pressed.
Qed.

Lemma script_quiet src inp :
  analysis_pressed inp = false ∨ picked options (navigation inp) ≠ Some "Reviews" →
  emits not_model_call
    (script parse_timestamp sentiment_pipeline wordcloud_generate src inp).
Proof.
  intros Hquiet. unfold script. pose proof (main_quiet) as Hm.
  emits_auto. by apply Hm.
Qed.

(** X5: the model is called only from the Reviews view and only when
    the button was pressed: in every other run of the script nothing is
    sent to the model. *)
Theorem model_called_only_on_request src inp :
  analysis_pressed inp = false ∨ picked options (navigation inp) ≠ Some "Reviews" →
  ∀ texts,
    ModelCall texts ∉
      screen (script parse_timestamp sentiment_pipeline wordcloud_generate
                src inp blank).2.
Proof.
  intros Hquiet texts Hin.
  destruct (script_quiet src inp Hquiet blank) as (evs & Hs & Hevs).
  rewrite Hs in Hin. cbn [blank screen app] in Hin.
  by apply (proj1 (Forall_forall _ _) Hevs) in Hin.
Qed.

End ModelCalls.

Lemma model_called_only_on_request_witness :
  ModelCall ["great product"; "ok"] ∉
    screen (script iso_date sample_pipeline sample_wordcloud (Csv sample_rows)
              (on_reviews 0 2 false) blank).2.
Proof.
  apply (model_called_only_on_request iso_date sample_pipeline sample_wordcloud).
  left. reflexivity.
Defined.

(** ** When the model fails *)

Section ModelFails.

Variable sentiment_pipeline : list string → Try (list Prediction).
Variable wordcloud_generate : string → Try (list (string * nat)).

(** X6: a failure of the model ends the analysis.  When the call
    raises, or answers with a list that is not as long as the frame,
    the analysis ends with the exception right after the call: the
    frame gets no column and nothing more is shown. *)
Theorem analysis_fails_whole l f σ :
  heap σ !! l = Some f →
  let texts := short_texts (content <$> rows f) in
  let after_call :=
    {| heap := heap σ; screen := screen σ ++ [ModelCall texts] |} in
  (∀ e, sentiment_pipeline texts = Raise e →
        analysis sentiment_pipeline wordcloud_generate l σ = (Raised e, after_call)) ∧
  (∀ results, sentiment_pipeline texts = Ok results →
        length results ≠ length (rows f) →
        ∃ msg, analysis sentiment_pipeline wordcloud_generate l σ
               = (Raised (ValueError msg), after_call)).
Proof.
  intros Hl texts after_call. split.
  - intros e He. unfold analysis, call_model. run. fold texts.
    rewrite He. by run.
  - intros results Hres Hlen. unfold analysis, call_model. run. fold texts.
    rewrite Hres. run. unfold setitem. run.
    unfold assign. rewrite decide_False by (by rewrite length_fmap).
    run. eauto.
Qed.

End ModelFails.

Lemma analysis_fails_whole_witness :
  analysis (λ _, Raise (ModelError "out of memory")) sample_wordcloud 0 sample_state =
  (Raised (ModelError "out of memory"),
   {| heap := heap sample_state;
      screen := screen sample_state ++
        [ModelCall (short_texts (content <$> rows (new_frame sample_table)))] |}).
Proof.
  destruct (analysis_fails_whole (λ _, Raise (ModelError "out of memory"))
              sample_wordcloud 0 (new_frame sample_table) sample_state eq_refl)
    as [Hraise _].
  apply Hraise. reflexivity.
Defined.

(** ** What the analysis shows *)

Section AnalysisShows.

Variable classify : string → Prediction.
Variable sentiment_pipeline : list string → Try (list Prediction).
Hypothesis pipeline_pointwise :
  ∀ texts, sentiment_pipeline texts = Ok (classify <$> texts).
Variable wordcloud_generate : string → Try (list (string * nat)).

(** X7: what the analysis shows.  For reviews whose contents are text
    and a model that answers text by text, the analysis ends normally
    whatever the word cloud generator does: it shows the chart of the
    classified frame, the word cloud or the message in its place, and
    last the table of date, content, sentiment and confidence, one
    sentiment and one confidence per review. *)
Theorem analysis_shows l f σ :
  heap σ !! l = Some f →
  let all_text := PyStr.join " " (content <$> rows f) in
  let results := classify <$> short_texts (content <$> rows f) in
  ∃ dates contents,
    column (classified classify f) "date" = Ok dates ∧
    column (classified classify f) "content" = Ok contents ∧
    analysis sentiment_pipeline wordcloud_generate l σ =
    (Done (),
     {| heap := <[l := classified classify f]> (heap σ);
        screen := screen σ ++
          [ModelCall (short_texts (content <$> rows f));
           Text Markdown "### Sentiment Distribution";
           Chart (classified classify f);
           Text Markdown "### Word Cloud"] ++
          (if PyStr.truthy all_text then
             [WordCloudCall all_text;
              match wordcloud_generate all_text with
              | Ok figure => Pyplot figure
              | Raise e =>
                  Message LError ("Could not generate Word Cloud: " +:+ exn_message e)
              end]
           else [Message LWarning "Not enough text for a word cloud."]) ++
          [Text Markdown "### Details";
           Table ["date"; "content"; "sentiment"; "confidence"]
             [dates; contents;
              (λ r, CText (label r)) <$> results;
              (λ r, CScore (score r)) <$> results]] |}).
Proof.
  intros Hl all_text results.
  destruct (column_of_file (classified classify f) "date") as (c1 & Hc1); [set_solver |].
  destruct (column_of_file (classified classify f) "content") as (c2 & Hc2); [set_solver |].
  exists c1, c2. split; [done |]. split; [done |].
  unfold analysis, call_model. run.
  rewrite pipeline_pointwise. run.
  erewrite setitem_run;
    [| frame_lookup | apply assign_ok; unfold short_texts; by rewrite !length_fmap].
  run.
  erewrite setitem_run;
    [| frame_lookup
     | apply assign_ok; unfold short_texts; cbn [rows]; by rewrite !length_fmap].
  run. cbn [assigned rows]. fold (classified classify f).
  rewrite (word_cloud_run wordcloud_generate l (classified classify f)) by frame_lookup.
  run.
  erewrite st_dataframe_run; [| frame_lookup |].
  2:{ unfold columns. cbn [try_map]. rewrite Hc1, Hc2.
      erewrite (column_assigned _ "sentiment");
        [| cbn [classified assigned]; by rewrite lookup_insert_ne, lookup_insert_eq].
      erewrite (column_assigned _ "confidence");
        [| cbn [classified assigned]; by rewrite lookup_insert_eq].
      done. }
  cbn [heap screen classified rows]. fold all_text. fold results.
  rewrite !insert_insert_eq. f_equal. f_equal.
  rewrite <- !app_assoc. cbn [app]. done.
Qed.

End AnalysisShows.

Lemma analysis_shows_witness :
  ∃ dates contents,
    column (classified sample_classify
              (new_frame (List.filter (in_window (Some 2023%Z) 3)
                            (List.filter is_review sample_table)))) "date"
    = Ok dates ∧
    column (classified sample_classify
              (new_frame (List.filter (in_window (Some 2023%Z) 3)
                            (List.filter is_review sample_table)))) "content"
    = Ok contents ∧
    analysis sample_pipeline sample_wordcloud 0 march_reviews =
    (Done (),
     {| heap := <[0 := classified sample_classify
                        (new_frame (List.filter (in_window (Some 2023%Z) 3)
                                      (List.filter is_review sample_table)))]>
                  (heap march_reviews);
        screen :=
          [ModelCall ["great product"; "ok"];
           Text Markdown "### Sentiment Distribution";
           Chart (classified sample_classify
                    (new_frame (List.filter (in_window (Some 2023%Z) 3)
                                  (List.filter is_review sample_table))));
           Text Markdown "### Word Cloud";
           WordCloudCall "great product ok";
           Pyplot [("great product ok", 1)];
           Text Markdown "### Details";
           Table ["date"; "content"; "sentiment"; "confidence"]
             [dates; contents;
              [CText "POSITIVE"; CText "NEGATIVE"];
              [CScore (99 # 100); CScore (2 # 1000)]]] |}).
Proof.
  apply (analysis_shows sample_classify sample_pipeline (λ texts, eq_refl)
           sample_wordcloud 0
           (new_frame (List.filter (in_window (Some 2023%Z) 3)
                         (List.filter is_review sample_table)))
           march_reviews).
  reflexivity.
Defined.

Section ReviewsShows.

Variable sentiment_pipeline : list string → Try (list Prediction).
Variable wordcloud_generate : string → Try (list (string * nat)).

(** X8: before the button is pressed, the Reviews view shows, for a
    window with reviews in it, the number of these reviews and the
    table of their dates and contents, in the order of the file, then
    the button, and ends there. *)
Theorem reviews_preview_shows df inp rs σ name m :
  heap σ !! df = Some (new_frame rs) →
  analysis_pressed inp = false →
  picked months (month_choice inp) = Some name →
  month_index name = Ok m →
  let reviews := List.filter is_review rs in
  let selected_year := picked (available_years (new_frame reviews)) (year_choice inp) in
  let shown := List.filter (in_window selected_year m) reviews in
  shown ≠ [] →
  ∃ h,
    reviews_view sentiment_pipeline wordcloud_generate df inp σ =
    (Done (),
     {| heap := h;
        screen := screen σ ++
          [Text Header "📝 Review Analysis (AI Powered)";
           Selectbox "Select Year:" (available_years (new_frame reviews));
           SelectSlider "Select Month:" months;
           Text Subheader ("Reviews in " +:+ name +:+ " " +:+ show_year selected_year);
           Text Written ("Count: " +:+ pretty (length shown));
           Text Markdown "### Preview of Reviews";
           Table ["date"; "content"]
             [(λ r, CDate (date r)) <$> shown; (λ r, CText (content r)) <$> shown];
           Button "Start Sentiment Analysis 🚀"] |}).
Proof.
  intros Hdf Hpressed Hname Hm reviews selected_year shown Hshown.
  destruct (reviews_view_window_run sentiment_pipeline wordcloud_generate
              df inp (new_frame rs) σ name m Hdf Hname Hm)
    as (l & h & cells & Hl & Hcells & Hrun).
  { rewrite !new_frame_index. exact Hshown. }
  rewrite Hrun, Hpressed. rewrite !new_frame_index in Hcells |- *.
  fold reviews. fold selected_year. fold shown.
  fold reviews in Hcells. fold selected_year in Hcells. fold shown in Hcells.
  assert (cells = [(λ r, CDate (date r)) <$> shown; (λ r, CText (content r)) <$> shown])
    as ->.
  { destruct shown; [done |]. by injection Hcells as <-. }
  rewrite ret_run. eauto.
Qed.

End ReviewsShows.

Lemma reviews_preview_shows_witness :
  ∃ h,
    reviews_view sample_pipeline sample_wordcloud 0 (on_reviews 0 2 false) sample_state =
    (Done (),
     {| heap := h;
        screen :=
          [Text Header "📝 Review Analysis (AI Powered)";
           Selectbox "Select Year:" [2023%Z; 2022%Z];
           SelectSlider "Select Month:" months;
           Text Subheader "Reviews in March 2023";
           Text Written "Count: 2";
           Text Markdown "### Preview of Reviews";
           Table ["date"; "content"]
             [[CDate {| year := 2023; month := 3; day := 14 |};
               CDate {| year := 2023; month := 3; day := 20 |}];
              [CText "great product"; CText "ok"]];
           Button "Start Sentiment Analysis 🚀"] |}).
Proof.
  destruct (reviews_preview_shows sample_pipeline sample_wordcloud 0
              (on_reviews 0 2 false) sample_table sample_state "March" 3)
    as [h Hrun]; try reflexivity; [vm_compute; discriminate |].
  exists h. exact Hrun.
Defined.

(** ** How a run ends *)

Section Outcomes.

Variable parse_timestamp : string → option Timestamp.
Variable classify : string → Prediction.
Variable sentiment_pipeline : list string → Try (list Prediction).
Hypothesis pipeline_pointwise :
  ∀ texts, sentiment_pipeline texts = Ok (classify <$> texts).
Variable wordcloud_generate : string → Try (list (string * nat)).




End Outcomes.


(** ** What the loader keeps *)


Section LoaderKeeps.

Variable parse_timestamp : string → option Timestamp.


End LoaderKeeps.


(** ** What the model is sent *)

Lemma emits_quiet_elem {A} (m : M A) σ texts :
  emits not_model_call m →
  ModelCall texts ∈ screen (m σ).2 → ModelCall texts ∈ screen σ.
Proof.
  intros Hm Hin. destruct (Hm σ) as (evs & Hs & Hevs). rewrite Hs in Hin.
  apply elem_of_app in Hin as [Hin | Hin]; [done |].
  by apply (proj1 (Forall_forall _ _) Hevs) in Hin.
Qed.

Ltac no_call_among H :=
  repeat (apply elem_of_cons in H as [H | H]; [discriminate H |]);
  by apply elem_of_nil in H.

Section ModelReceives.

Variable parse_timestamp : string → option Timestamp.
Variable sentiment_pipeline : list string → Try (list Prediction).
Variable wordcloud_generate : string → Try (list (string * nat)).

(** The analysis calls the model once. *)
Lemma analysis_calls_once l f σ :
  heap σ !! l = Some f →
  ∃ rest,
    screen (analysis sentiment_pipeline wordcloud_generate l σ).2 =
    screen σ ++ ModelCall (short_texts (content <$> rows f)) :: rest ∧
    Forall not_model_call rest.
Proof.
  intros Hl. unfold analysis, call_model.
  rewrite bind_run, (read_run l f) by done.
  rewrite bind_run, bind_run, emit_run.
  match goal with
  | |- context [lift ?t] => destruct t as [results|e]
  end.
  - rewrite lift_ok_run.
    match goal with
    | |- ∃ _, screen (?m ?s).2 = _ ∧ _ =>
        assert (emits not_model_call m) as Hrest
          by (unfold word_cloud; emits_auto);
        destruct (Hrest s) as (evs & -> & Hevs)
    end.
    cbn [screen]. exists evs. by rewrite <- app_assoc.
  - rewrite lift_raise_run. cbn [snd screen]. exists []. done.
Qed.

Lemma reviews_view_model_calls df inp rs σ name m texts :
  heap σ !! df = Some (new_frame rs) →
  picked months (month_choice inp) = Some name →
  month_index name = Ok m →
  let reviews := List.filter is_review rs in
  let selected_year := picked (available_years (new_frame reviews)) (year_choice inp) in
  let shown := List.filter (in_window selected_year m) reviews in
  ModelCall texts ∈
    screen (reviews_view sentiment_pipeline wordcloud_generate df inp σ).2 →
  ModelCall texts ∈ screen σ ∨ texts = short_texts (content <$> shown).
Proof.
  intros Hdf Hname Hm reviews selected_year shown Hin.
  destruct (decide (reviews = [])) as [Hreviews | Hreviews].
  { destruct (reviews_view_none_run sentiment_pipeline wordcloud_generate
                df inp (new_frame rs) σ Hdf Hreviews) as [h Hrun].
    rewrite Hrun in Hin. cbn [snd screen] in Hin.
    apply elem_of_app in Hin as [Hin | Hin]; [by left | no_call_among Hin]. }
  destruct (decide (shown = [])) as [Hshown | Hshown].
  { destruct (reviews_view_empty_window_run sentiment_pipeline wordcloud_generate
                df inp (new_frame rs) σ name m Hdf) as [h Hrun]; try done.
    - rewrite !new_frame_index. exact Hshown.
    - rewrite Hrun in Hin. cbn [snd screen] in Hin.
      apply elem_of_app in Hin as [Hin | Hin]; [by left | no_call_among Hin]. }
  destruct (reviews_view_window_run sentiment_pipeline wordcloud_generate
              df inp (new_frame rs) σ name m Hdf Hname Hm)
    as (l & h & cells & Hl & _ & Hrun).
  { rewrite !new_frame_index. exact Hshown. }
  rewrite Hrun in Hin. rewrite !new_frame_index in Hl.
  destruct (analysis_pressed inp).
  - match type of Hin with
    | context [analysis _ _ l ?s] =>
        destruct (analysis_calls_once l _ s Hl) as (rest & Hscreen & Hrest)
    end.
    rewrite Hscreen in Hin. cbn [screen new_frame rows] in Hin.
    apply elem_of_app in Hin as [Hin | Hin].
    + apply elem_of_app in Hin as [Hin | Hin]; [by left | no_call_among Hin].
    + apply elem_of_cons in Hin as [Hin | Hin]; [right; by injection Hin |].
      by apply (proj1 (Forall_forall _ _) Hrest) in Hin.
  - rewrite ret_run in Hin. cbn [snd screen] in Hin.
    apply elem_of_app in Hin as [Hin | Hin]; [by left | no_call_among Hin].
Qed.

(** X12: the model is sent the reviews of the chosen window and
    nothing else.  Whatever a run of the script sends to the model is
    the list of the contents of the rows of the file that are reviews
    dated in the chosen year and month, in the order of the file, each
    cut to 512 characters. *)
Theorem model_receives_window src inp loaded name m texts :
  load_data parse_timestamp src = Ok loaded →
  picked months (month_choice inp) = Some name →
  month_index name = Ok m →
  let reviews := List.filter is_review loaded in
  let selected_year := picked (available_years (new_frame reviews)) (year_choice inp) in
  let shown := List.filter (in_window selected_year m) reviews in
  ModelCall texts ∈
    screen (script parse_timestamp sentiment_pipeline wordcloud_generate
              src inp blank).2 →
  texts = short_texts (content <$> shown).
Proof.
  intros Hload Hname Hm reviews selected_year shown Hin.
  destruct (decide (picked options (navigation inp) = Some "Reviews")) as [Hnav | Hnav].
  2:{ exfalso. revert Hin.
      destruct (script_quiet parse_timestamp sentiment_pipeline wordcloud_generate
                  src inp (or_intror Hnav) blank) as (evs & Hs & Hevs).
      rewrite Hs. cbn [blank screen app]. intros Hin.
      by apply (proj1 (Forall_forall _ _) Hevs) in Hin. }
  revert Hin. unfold script. run. rewrite Hload. run. rewrite alloc_run.
  cbn [heap screen].
  set (df := fresh (dom (heap blank))).
  set (σ0 := {| heap := _; screen := _ |}).
  assert (heap σ0 !! df = Some (new_frame loaded)) as Hdf by apply lookup_alloc_new.
  assert (∀ texts, ModelCall texts ∉ screen σ0) as Hquiet0.
  { intros t Ht. cbn [σ0 screen blank app] in Ht. no_call_among Ht. }
  clearbody σ0 df.
  destruct loaded as [|r0 rest].
  { erewrite main_empty_run; [| exact Hdf | done]. cbn [snd screen]. intros Hin.
    exfalso. apply elem_of_app in Hin as [Hin | Hin];
      [by apply Hquiet0 in Hin | no_call_among Hin]. }
  unfold main. run. cbn [empty_frame new_frame rows]. run. unfold st_radio. run.
  rewrite Hnav. rewrite !bool_decide_false by done. rewrite bool_decide_true by done.
  set (σ1 := {| heap := _; screen := _ |}).
  assert (heap σ1 !! df = Some (new_frame (r0 :: rest))) as Hdf1 by exact Hdf.
  intros Hin.
  destruct (reviews_view_model_calls df inp (r0 :: rest) σ1 name m texts Hdf1 Hname Hm Hin)
    as [Hold | ->]; [| done].
  exfalso. cbn [σ1 screen] in Hold.
  apply elem_of_app in Hold as [Hold | Hold]; [| no_call_among Hold].
  apply elem_of_app in Hold as [Hold | Hold]; [by apply Hquiet0 in Hold | no_call_among Hold].
Qed.

End ModelReceives.

Lemma model_receives_window_witness :
  ["great product"; "ok"] =
  short_texts
    (content <$>
     List.filter
       (in_window
          (picked (available_years (new_frame (List.filter is_review sample_table))) 0) 3)
       (List.filter is_review sample_table)).
Proof.
  apply (model_receives_window iso_date sample_pipeline sample_wordcloud
           (Csv sample_rows) (on_reviews 0 2 true) sample_table "March" 3);
    try reflexivity.
  vm_compute. apply list_elem_of_In. do 12 right. left. reflexivity.
Defined.

(** ** Which reviews can be shown *)

Lemma picked_elem {A} (opts : list A) x :
  x ∈ opts → ∃ choice, picked opts choice = Some x.
Proof.
  intros [i Hi]%list_elem_of_lookup. exists i. unfold picked. by rewrite Hi.
Qed.

(** X13: no review is out of reach.  For every review of the file
    whose month is a month of the calendar there is a choice of the
    year box and of the month slider for which the window contains
    it. *)
Theorem every_review_reachable (rs : list Row) (r : Row) :
  r ∈ rs → type r = "review" → (1 ≤ month (date r) ≤ 12)%Z →
  let reviews := List.filter is_review rs in
  ∃ year_ix month_ix name,
    picked (available_years (new_frame reviews)) year_ix = Some (year (date r)) ∧
    picked months month_ix = Some name ∧
    month_index name = Ok (month (date r)) ∧
    r ∈ List.filter (in_window (Some (year (date r))) (month (date r))) reviews.
Proof.
  intros Hr Htype Hmonth reviews.
  assert (r ∈ reviews) as Hin.
  { apply list_elem_of_In, filter_In. split; [by apply list_elem_of_In |].
    by apply is_review_true. }
  assert (rows (new_frame reviews) ≠ []) as Hne.
  { cbn. intros Hnil. rewrite Hnil in Hin. by apply elem_of_nil in Hin. }
  destruct (available_years_spec (new_frame reviews) Hne) as [Hyears _].
  destruct (picked_elem (available_years (new_frame reviews)) (year (date r)))
    as [year_ix Hyear].
  { apply Hyears. eauto. }
  set (k := Z.to_nat (month (date r) - 1)).
  destruct (lookup_lt_is_Some_2 months k) as [name Hname].
  { cbn. lia. }
  exists year_ix, k, name. split; [done |].
  split; [unfold picked; by rewrite Hname |].
  split.
  { rewrite (month_index_lookup k name Hname). f_equal. lia. }
  apply list_elem_of_In, filter_In. split; [by apply list_elem_of_In |].
  unfold in_window, year_is. by rewrite !Z.eqb_refl.
Qed.

Lemma every_review_reachable_witness :
  ∃ year_ix month_ix name,
    picked (available_years (new_frame (List.filter is_review sample_table))) year_ix
    = Some 2022%Z ∧
    picked months month_ix = Some name ∧
    month_index name = Ok 3%Z ∧
    {| type := "review"; content := "terrible"; rating := None;
       date := {| year := 2022; month := 3; day := 9 |} |}
    ∈ List.filter (in_window (Some 2022%Z) 3) (List.filter is_review sample_table).
Proof.
  apply (every_review_reachable sample_table
           {| type := "review"; content := "terrible"; rating := None;
              date := {| year := 2022; month := 3; day := 9 |} |}).
  - apply list_elem_of_In. vm_compute. do 3 right. left. reflexivity.
  - reflexivity.
  - simpl. lia.
Defined.

(** ** What the cut keeps *)

(** X14: the cut keeps the beginning.  Each text sent to the model is
    the first part of the review it comes from: exactly its first 512
    characters when the review is longer, the whole review otherwise;
    and cutting twice is cutting once. *)
Theorem truncation_keeps_beginning (texts : list string) :
  short_texts (short_texts texts) = short_texts texts ∧
  ∀ i t, texts !! i = Some t →
    ∃ cut lost,
      short_texts texts !! i = Some cut ∧
      t = cut +:+ lost ∧
      String.length cut = String.length t `min` 512.
Proof.
  split.
  - unfold short_texts. rewrite <- list_fmap_compose. apply list_fmap_ext.
    intros i t _. unfold compose. apply take_short, take_length.
  - intros i t Hi. by apply short_texts_beginning.
Qed.

Lemma truncation_keeps_beginning_witness :
  ∃ cut lost,
    short_texts ["ok"; "great product"] !! 1 = Some cut ∧
    "great product" = cut +:+ lost ∧
    String.length cut = String.length "great product" `min` 512.
Proof.
  destruct (truncation_keeps_beginning ["ok"; "great product"]) as [_ Hcut].
  apply (Hcut 1 "great product"). reflexivity.
Defined.

(** ** The year selected at first *)

(** X15: the year box opens on the latest year.  When there are
    reviews and nothing was picked yet, the selected year is the year
    of some review and no review is dated later. *)
Theorem default_year_is_latest (rs : list Row) :
  let reviews := List.filter is_review rs in
  reviews ≠ [] →
  ∃ y,
    picked (available_years (new_frame reviews)) 0 = Some y ∧
    (∃ r, r ∈ rs ∧ type r = "review" ∧ year (date r) = y) ∧
    ∀ r, r ∈ rs → type r = "review" → (year (date r) ≤ y)%Z.
Proof.
  intros reviews Hne.
  destruct (available_years_spec (new_frame reviews) Hne) as [Hyears Hsorted].
  assert (∀ r, r ∈ reviews ↔ r ∈ rs ∧ type r = "review") as Hreviews.
  { intros r. unfold reviews.
    by rewrite list_elem_of_In, filter_In, <- list_elem_of_In, is_review_true. }
  destruct (available_years (new_frame reviews)) as [|y ys] eqn:E.
  { destruct reviews as [|r rest]; [done |]. exfalso.
    assert (year (date r) ∈ @nil Z) as Hin by (apply Hyears; exists r; split; [by left | done]).
    by apply elem_of_nil in Hin. }
  exists y. split; [done |]. split.
  - destruct (proj1 (Hyears y)) as (r & Hr & Hy); [by left |].
    cbn in Hr. apply Hreviews in Hr as [Hr Ht]. eauto.
  - intros r Hr Ht.
    assert (year (date r) ∈ y :: ys) as Hin.
    { apply Hyears. exists r. split; [| done]. cbn. by apply Hreviews. }
    apply elem_of_cons in Hin as [-> | Hin]; [lia |].
    unfold strictly_descending in Hsorted.
    apply StronglySorted_inv in Hsorted as [_ Hall].
    pose proof (proj1 (Forall_forall _ _) Hall _ Hin) as Hlt. simpl in Hlt. lia.
Qed.

Lemma default_year_is_latest_witness :
  ∃ y,
    picked (available_years (new_frame (List.filter is_review sample_table))) 0 = Some y ∧
    (∃ r, r ∈ sample_table ∧ type r = "review" ∧ year (date r) = y) ∧
    ∀ r, r ∈ sample_table → type r = "review" → (year (date r) ≤ y)%Z.
Proof.
  apply (default_year_is_latest sample_table). vm_compute. discriminate.
Defined.

(** ** Products without a price among products with one *)

(** X16: in a column where some product text has the delimiter, a
    product text without it is no error: its name is the whole text
    without "Product: ", and its price is absent. *)
Theorem unpriced_product_among_priced (contents : list string) i s t :
  contents !! i = Some s →
  PyStr.contains " - " s = false →
  t ∈ contents →
  PyStr.contains " - " t = true →
  ∃ names prices,
    product_names contents = Ok names ∧
    product_prices contents = Ok prices ∧
    names !! i = Some (Some (PyStr.replace "Product: " "" s)) ∧
    prices !! i = Some None.
Proof.
  intros Hi Hno [j Hj]%list_elem_of_lookup [k Hk]%contains_true_find.
  destruct (expanded_column_row " - " 1 contents 1 j t Hj) as (c1 & Hc1 & _).
  { cbn [PyStr.split]. rewrite Hk. simpl. lia. }
  destruct (expanded_column_row " - " 1 contents 0 i s Hi) as (c0 & Hc0 & Hc0i).
  { destruct (split_length " - " 1 s) as [? _]. lia. }
  unfold product_names, product_prices. rewrite Hc0, Hc1. cbn [try_bind].
  eexists _, _. split; [done |]. split; [done |].
  rewrite (split_no_separator _ _ _ Hno) in Hc0i.
  unfold str_replace, to_numeric. rewrite list_lookup_fmap, Hc0i. split; [done |].
  revert Hc1. unfold expanded_column. destruct (decide _); [| done]. intros [= <-].
  unfold str_split_expand. cbn [parts].
  rewrite !list_lookup_fmap, Hi.
  unfold PyStr.contains in Hno. simpl. by destruct (PyStr.find " - " s).
Qed.

Lemma unpriced_product_among_priced_witness :
  ∃ names prices,
    product_names ["Product: Laptop - 999.99"; "Product: Widget"] = Ok names ∧
    product_prices ["Product: Laptop - 999.99"; "Product: Widget"] = Ok prices ∧
    names !! 1 = Some (Some (PyStr.replace "Product: " "" "Product: Widget")) ∧
    prices !! 1 = Some None.
Proof.
  apply (unpriced_product_among_priced
           ["Product: Laptop - 999.99"; "Product: Widget"] 1 "Product: Widget"
           "Product: Laptop - 999.99");
    try reflexivity.
  apply elem_of_cons. by left.
Defined.
